(** * Book catalogue front end: pagination window and edit-form flow

    A shallow embedding of [src/app/page.tsx], which holds three React
    modules: the page shell, the [BookModal] component (edit form) and
    the [BooksClient] component (list controller).

    - JavaScript values are a small tagged union [JsVal]: the primitive
      values and arrays of values, which is what a JSON body can put into a
      property; plain objects as property values are not modelled.
      Numbers that the program handles are page numbers and quantities,
      modelled as [Z] next to [NaN]; a [Z] stands for the JavaScript
      number of that value, which exists and prints as its decimal digits
      for the safe integers, up to 2^53 - 1 in magnitude.
    - A JavaScript object used as a record ([bookData]) is an association
      list in insertion order, which is what [Object.entries] enumerates
      for names that are not array indices.
    - [useState] cells are fields of a [World] record; a setter updates
      its cell and leaves an event in the trace of the world, so that the
      order of writes, requests and console messages can be stated.
    - [async] functions run in a state-and-exception monad [M]; what the
      network does with a request is an argument of the operation that
      issues it ([Answer]): the promise rejects, or it resolves to a
      response that is ok or not and whose body parses or not.
    - A call of an [async] function that is not awaited is run to its end
      at the place of the call; in this program such a call only writes
      cells that the caller does not touch afterwards.
    - Handlers are closures of one render: the values of [page],
      [viewCnt] and [searchKeyword] they see are parameters, and
      [Rendered] binds them to the cells of the world a render shows.
      [View] holds what that render displays: the list area and the
      pagination bar with the argument each button passes on a click. *)

From Stdlib Require Import ZArith List String Ascii Bool Lia DecimalString.
From Stdlib Require DecimalPos.
From Equations Require Import Equations.
Import ListNotations.
Local Open Scope string_scope.
Local Open Scope Z_scope.

(** ** JavaScript values *)

#[warnings="-register-all"]
Inductive JsVal : Type :=
| VUndefined
| VNull
| VBool (b : bool)
| VNaN
| VNum (n : Z)
| VStr (s : string)
| VArr (items : list JsVal).

(** [ToBoolean]: what [v ? a : b] and [v || w] test. *)
Definition truthy (v : JsVal) : bool :=
  match v with
  | VUndefined | VNull | VNaN => false
  | VBool b => b
  | VNum n => negb (n =? 0)
  | VStr s => negb (String.eqb s "")
  | VArr _ => true
  end.

(** [Number.prototype.toString] on an integer: decimal digits, with a
    leading minus sign for negative values.  This is the text JavaScript
    prints for the safe integers ([maxSafeInteger] in magnitude); beyond
    them a number prints rounded digits, and from 10^21 on an exponent. *)
Definition maxSafeInteger : Z := 9007199254740991.

Definition numToString (n : Z) : string :=
  NilZero.string_of_int (Z.to_int n).

(** [ToString], as used by template literals, [new Error(v)] and
    [value.toString()].  An array prints as [join(",")] of its elements,
    where [null] and [undefined] elements print as nothing. *)
Fixpoint toString (v : JsVal) : string :=
  match v with
  | VUndefined => "undefined"
  | VNull => "null"
  | VBool true => "true"
  | VBool false => "false"
  | VNaN => "NaN"
  | VNum n => numToString n
  | VStr s => s
  | VArr items =>
      (fix join (l : list JsVal) : string :=
         match l with
         | [] => ""
         | x :: rest =>
             let text :=
               match x with
               | VUndefined | VNull => ""
               | _ => toString x
               end in
             match rest with
             | [] => text
             | _ :: _ => text ++ "," ++ join rest
             end
         end) items
  end.

(** [a || b] *)
Definition jsOr (a b : JsVal) : JsVal := if truthy a then a else b.

(** ** Objects as ordered property lists *)

Definition JsObject : Type := list (string * JsVal).

Fixpoint getProp (o : JsObject) (k : string) : JsVal :=
  match o with
  | [] => VUndefined
  | (k', v) :: rest => if String.eqb k' k then v else getProp rest k
  end.

(** [{...prev, [k]: v}]: an existing property keeps its position and gets
    the new value, a new property is added at the end. *)
Fixpoint setProp (o : JsObject) (k : string) (v : JsVal) : JsObject :=
  match o with
  | [] => [(k, v)]
  | (k', v') :: rest =>
      if String.eqb k' k then (k', v) :: rest else (k', v') :: setProp rest k v
  end.

Definition keys (o : JsObject) : list string := map fst o.

(** ** Data model *)

(** [type Book] of the modal, and its blank template. *)
Definition initialBookState : JsObject :=
  [ ("id", VStr "");
    ("title", VStr "");
    ("author", VStr "");
    ("publisher", VStr "");
    ("publishDt", VStr "");
    ("bookDetails", VStr "");
    ("thumbSeq", VStr "");
    ("booksAmount", VNum 0);
    ("sellAmount", VNum 0) ].

(** [type BooksResponse] *)
Record BooksResponse : Type := mkBooksResponse {
  list_ : list JsObject;
  responseMessage : string;
  totalPages : Z;
  responseCode : Z
}.

(** A browser [File], identified by its name. *)
Record File : Type := mkFile { fileName : string }.

(** ** Pagination window ([getPaginationRange]) *)

Module Pagination.

Definition maxVisiblePages : Z := 10.

(** [for (let i = start; i <= end; i++) range.push(i)] *)
Equations? pushLoop (i stop : Z) (range : list Z) : list Z
  by wf (Z.to_nat (stop + 1 - i)) lt :=
  pushLoop i stop range with Z_le_gt_dec i stop := {
    | left _ => pushLoop (i + 1) stop (range ++ [i])%list;
    | right _ => range }.
Proof. lia. Qed.

Definition getPaginationRange (page : Z) (data : option BooksResponse) : list Z :=
  match data with
  | None => []
  | Some data =>
      let range : list Z := [] in
      let start := Z.max (page - 5) 1 in
      let stop := Z.min (page + 4) (totalPages data) in
      let '(start, stop) :=
        if stop - start + 1 <? maxVisiblePages then
          if start =? 1 then
            (start, Z.min (start + maxVisiblePages - 1) (totalPages data))
          else
            (Z.max (stop - maxVisiblePages + 1) 1, stop)
        else (start, stop) in
      pushLoop start stop range
  end.

(** The window as the specification words it: resolve [start] and [end],
    then list every integer from [start] to [end] inclusive. *)
Definition interval (lo hi : Z) : list Z :=
  map (fun k => lo + Z.of_nat k) (seq 0 (Z.to_nat (hi - lo + 1))).

Definition computeVisibleWindow_spec (page totalPages : Z) : list Z :=
  let start := Z.max (page - 5) 1 in
  let stop := Z.min (page + 4) totalPages in
  if stop - start + 1 <? 10 then
    if start =? 1 then interval start (Z.min (start + 9) totalPages)
    else interval (Z.max (stop - 9) 1) stop
  else interval start stop.

End Pagination.

(** ** [parseInt] *)

(** [parseInt(string)] without a radix: leading white space is skipped, a
    sign is read, a [0x]/[0X] prefix selects radix 16, and the longest
    prefix of digits is converted; no digit at all gives [NaN].  White
    space is the ASCII part of [StrWhiteSpaceChar]. *)
Module Number.

Definition isWhiteSpace (c : ascii) : bool :=
  let n := Z.of_nat (nat_of_ascii c) in
  ((9 <=? n) && (n <=? 13)) || (n =? 32).

Fixpoint trimStart (s : string) : string :=
  match s with
  | String c rest => if isWhiteSpace c then trimStart rest else s
  | EmptyString => s
  end.

Definition digitValue (c : ascii) : option Z :=
  let n := Z.of_nat (nat_of_ascii c) in
  if (48 <=? n) && (n <=? 57) then Some (n - 48)
  else if (97 <=? n) && (n <=? 122) then Some (n - 87)
  else if (65 <=? n) && (n <=? 90) then Some (n - 55)
  else None.

(** Value of the longest prefix of radix-[r] digits; [acc] is [None] until
    a first digit has been read. *)
Fixpoint readDigits (r : Z) (s : string) (acc : option Z) : option Z :=
  match s with
  | EmptyString => acc
  | String c rest =>
      match digitValue c with
      | Some d =>
          if d <? r then
            readDigits r rest
              (Some (match acc with None => d | Some a => a * r + d end))
          else acc
      | None => acc
      end
  end.

Definition parseInt (input : string) : JsVal :=
  let s := trimStart input in
  let '(sign, s) :=
    match s with
    | String "-" rest => (-1, rest)
    | String "+" rest => (1, rest)
    | _ => (1, s)
    end in
  let '(radix, s) :=
    match s with
    | String "0" (String "x" rest) => (16, rest)
    | String "0" (String "X" rest) => (16, rest)
    | _ => (10, s)
    end in
  match readDigits radix s None with
  | None => VNaN
  | Some n => VNum (sign * n)
  end.

End Number.

(** ** Requests, responses and thrown values *)

(** What a [catch] clause receives: an [Error] instance with its message,
    or any other value. *)
Inductive Thrown : Type :=
| ErrorObj (message : string)
| NonError (v : JsVal).

(** [new Error(v)] *)
Definition newError (v : JsVal) : Thrown :=
  ErrorObj (match v with VUndefined => "" | _ => toString v end).

Inductive Method : Type := GET | POST | PUT | DELETE.

Inductive FormValue : Type :=
| FText (s : string)
| FFile (f : File).

(** A [FormData]: entries in the order they were appended. *)
Definition FormData : Type := list (string * FormValue).

Definition append (fd : FormData) (name : string) (v : FormValue) : FormData :=
  (fd ++ [(name, v)])%list.

Record Request : Type := mkRequest {
  url : string;
  method : Method;
  headers : list (string * string);
  body : option FormData
}.

(** A response whose body has the shape [B] once [res.json()] is awaited;
    [json] holds what that call yields, a thrown value when the body does
    not parse. *)
Record Response (B : Type) : Type := mkResponse {
  ok : bool;
  jsonResult : Thrown + B
}.
Arguments mkResponse {B} _ _.
Arguments ok {B} _.
Arguments jsonResult {B} _.

(** What the network does with a request: the [fetch] promise rejects, or
    it resolves to a response. *)
Inductive Answer (B : Type) : Type :=
| Rejects (e : Thrown)
| Responds (res : Response B).
Arguments Rejects {B} _.
Arguments Responds {B} _.

(** Body of [GET /books/{id}] *)
Record DetailBody : Type := mkDetailBody { obj : JsObject }.

(** Error body of a save or delete request, as far as the handlers read
    it: the value of [errorData.message], which is [VUndefined] when the
    body has no such property (an object without it, or a number, a
    string, a boolean or an array).  A body [null] makes the expression
    [errorData.message] throw a TypeError right after [res.json()], inside
    the same [try] and with nothing in between: that is the case [inl] of
    [jsonResult], with that TypeError as the thrown value. *)
Record ErrorData : Type := mkErrorData { message : JsVal }.

(** ** Component state *)

Module Modal.
(** The four [useState] cells of [BookModal]. *)
Record State : Type := mkState {
  bookData : JsObject;
  loading : bool;
  error : string;
  thumbnail : option File
}.
End Modal.

Module Client.
(** The seven [useState] cells of [BooksClient]. *)
Record State : Type := mkState {
  searchKeyword : string;
  data : option BooksResponse;
  loading : bool;
  page : Z;
  viewCnt : Z;
  isModalOpen : bool;
  selectedBook : string
}.
End Client.

(** Everything observable, in the order it happened. *)
Inductive Event : Type :=
| SetBookData (o : JsObject)
| SetModalLoading (b : bool)
| SetError (s : string)
| SetThumbnail (f : option File)
| SetSearchKeyword (s : string)
| SetData (d : BooksResponse)
| SetLoading (b : bool)
| SetPage (n : Z)
| SetIsModalOpen (b : bool)
| SetSelectedBook (s : string)
| Fetch (req : Request)
| ConsoleError (label : string) (e : Thrown).

Record World : Type := mkWorld {
  modal : Modal.State;
  client : Client.State;
  trace : list Event
}.

(** ** The monad of handlers: state and exceptions *)

Inductive Outcome (A : Type) : Type :=
| Returned (a : A)
| Threw (e : Thrown).
Arguments Returned {A} _.
Arguments Threw {A} _.

Definition M (A : Type) : Type := World -> Outcome A * World.

Definition ret {A} (a : A) : M A := fun w => (Returned a, w).

Definition throw {A} (e : Thrown) : M A := fun w => (Threw e, w).

Definition bind {A B} (m : M A) (k : A -> M B) : M B :=
  fun w =>
    match m w with
    | (Returned a, w') => k a w'
    | (Threw e, w') => (Threw e, w')
    end.

Declare Scope js_scope.
Delimit Scope js_scope with js.
Notation "x <- m ;; k" := (bind m (fun x => k))
  (at level 100, m at next level, right associativity) : js_scope.
Notation "m ;; k" := (bind m (fun _ => k))
  (at level 100, right associativity) : js_scope.
Local Open Scope js_scope.

(** [try { body } catch (e) { handler e }] *)
Definition tryCatch {A} (body : M A) (handler : Thrown -> M A) : M A :=
  fun w =>
    match body w with
    | (Returned a, w') => (Returned a, w')
    | (Threw e, w') => handler e w'
    end.

(** [try { body } finally { final }]: [final] runs on both exits and the
    exit of [body] is kept, unless [final] itself throws. *)
Definition tryFinally {A} (body : M A) (final : M unit) : M A :=
  fun w =>
    let '(r, w') := body w in
    match final w' with
    | (Returned _, w'') => (r, w'')
    | (Threw e, w'') => (Threw e, w'')
    end.

Definition emit (ev : Event) : M unit :=
  fun w => (Returned tt, mkWorld (modal w) (client w) (trace w ++ [ev])%list).

Definition getModal : M Modal.State := fun w => (Returned (modal w), w).
Definition getClient : M Client.State := fun w => (Returned (client w), w).

Definition updModal (f : Modal.State -> Modal.State) : M unit :=
  fun w => (Returned tt, mkWorld (f (modal w)) (client w) (trace w)).

Definition updClient (f : Client.State -> Client.State) : M unit :=
  fun w => (Returned tt, mkWorld (modal w) (f (client w)) (trace w)).

(** [console.error(label, e)] *)
Definition consoleError (label : string) (e : Thrown) : M unit :=
  emit (ConsoleError label e).

(** [await fetch(url, init)]: the request goes out, then the promise
    settles the way the network answers. *)
Definition fetch {B} (req : Request) (ans : Answer B) : M (Response B) :=
  emit (Fetch req) ;;
  match ans with
  | Rejects e => throw e
  | Responds res => ret res
  end.

(** [await res.json()] *)
Definition json {B} (res : Response B) : M B :=
  match jsonResult res with
  | inl e => throw e
  | inr b => ret b
  end.

Definition jsonHeaders : list (string * string) :=
  [ ("Content-Type", "application/json");
    ("Access-Control-Allow-Origin", "*") ].

(** ** The edit form ([BookModal]) *)

Module BookModal.

Definition setBookData (o : JsObject) : M unit :=
  updModal (fun m => Modal.mkState o (Modal.loading m) (Modal.error m) (Modal.thumbnail m)) ;;
  emit (SetBookData o).

(** [setBookData((prev) => f prev)] *)
Definition setBookDataFrom (f : JsObject -> JsObject) : M unit :=
  m <- getModal ;;
  setBookData (f (Modal.bookData m)).

Definition setLoading (b : bool) : M unit :=
  updModal (fun m => Modal.mkState (Modal.bookData m) b (Modal.error m) (Modal.thumbnail m)) ;;
  emit (SetModalLoading b).

Definition setError (s : string) : M unit :=
  updModal (fun m => Modal.mkState (Modal.bookData m) (Modal.loading m) s (Modal.thumbnail m)) ;;
  emit (SetError s).

Definition setThumbnail (f : option File) : M unit :=
  updModal (fun m => Modal.mkState (Modal.bookData m) (Modal.loading m) (Modal.error m) f) ;;
  emit (SetThumbnail f).

Section Props.

(** [process.env.NEXT_PUBLIC_API_URL] *)
Variable API_URL : string.

(** The props [onSave] and [onClose]. *)
Variable onSave : JsObject -> FormData -> M unit.
Variable onClose : M unit.

Definition getBookDetail (bookId : string) (ans : Answer DetailBody) : M unit :=
  tryFinally
    (tryCatch
       (setLoading true ;;
        res <- fetch (mkRequest (API_URL ++ "/books/" ++ bookId) GET jsonHeaders None) ans ;;
        (if negb (ok res) then throw (newError (VStr "Failed to fetch books")) else ret tt) ;;
        result <- json res ;;
        setBookData (obj result))
       (fun error => consoleError "Error fetching books:" error))
    (setLoading false).

(** The body of [useEffect(..., [bookId, isOpen])].  The call of
    [getBookDetail] is not awaited; its continuation touches [bookData]
    and [loading] only and is run here to its end. *)
Definition effect (bookId : string) (ans : Answer DetailBody) : M unit :=
  setThumbnail None ;;
  if truthy (VStr bookId) then getBookDetail bookId ans
  else setBookData initialBookState.

(** The dependency list of the effect, and React's rule: the effect runs
    after the first render and after each render that changed a
    dependency. *)
Definition Deps : Type := (string * bool)%type.

Definition sameDeps (a b : Deps) : bool :=
  String.eqb (fst a) (fst b) && Bool.eqb (snd a) (snd b).

Definition useEffect (prev : option Deps) (bookId : string) (isOpen : bool)
    (ans : Answer DetailBody) : M unit :=
  match prev with
  | None => effect bookId ans
  | Some d => if sameDeps d (bookId, isOpen) then ret tt else effect bookId ans
  end.

(** [handleChange], with [e.target] given by its [name] and [value]. *)
Definition handleChange (name value : string) : M unit :=
  setBookDataFrom (fun prev =>
    setProp prev name
      (if String.eqb name "booksAmount" || String.eqb name "selAmount"
       then jsOr (Number.parseInt value) (VNum 0)
       else VStr value)).

(** [handleFileChange], with [e.target.files] as a list. *)
Definition handleFileChange (files : list File) : M unit :=
  match files with
  | f :: _ => setThumbnail (Some f)
  | [] => ret tt
  end.

(** The payload of [handleSubmit]: one [append] per entry of
    [Object.entries(bookData)], then the file. *)
Definition appendEntries (formData : FormData) (bookData : JsObject) : FormData :=
  fold_left
    (fun formData kv =>
       let '(key, value) := kv in
       append formData key (FText (if truthy value then toString value else "")))
    bookData formData.

Definition buildFormData (bookData : JsObject) (thumbnail : option File) : FormData :=
  let formData : FormData := [] in
  let formData := appendEntries formData bookData in
  match thumbnail with
  | Some file => append formData "thumbnail" (FFile file)
  | None => formData
  end.

Definition genericSubmitError : string := "저장 중 오류가 발생했습니다.".

Definition handleSubmit : M unit :=
  setLoading true ;;
  setError "" ;;
  m <- getModal ;;
  let formData := buildFormData (Modal.bookData m) (Modal.thumbnail m) in
  tryFinally
    (tryCatch
       (onSave (Modal.bookData m) formData ;;
        onClose)
       (fun err =>
          setError (match err with
                    | ErrorObj message => message
                    | NonError _ => genericSubmitError
                    end)))
    (setLoading false).

End Props.

End BookModal.

(** ** The list controller ([BooksClient]) *)

Module BooksClient.

Definition setData (d : BooksResponse) : M unit :=
  updClient (fun c => Client.mkState (Client.searchKeyword c) (Some d) (Client.loading c)
                        (Client.page c) (Client.viewCnt c) (Client.isModalOpen c)
                        (Client.selectedBook c)) ;;
  emit (SetData d).

Definition setLoading (b : bool) : M unit :=
  updClient (fun c => Client.mkState (Client.searchKeyword c) (Client.data c) b
                        (Client.page c) (Client.viewCnt c) (Client.isModalOpen c)
                        (Client.selectedBook c)) ;;
  emit (SetLoading b).

Definition setPage (n : Z) : M unit :=
  updClient (fun c => Client.mkState (Client.searchKeyword c) (Client.data c) (Client.loading c)
                        n (Client.viewCnt c) (Client.isModalOpen c)
                        (Client.selectedBook c)) ;;
  emit (SetPage n).

Definition setIsModalOpen (b : bool) : M unit :=
  updClient (fun c => Client.mkState (Client.searchKeyword c) (Client.data c) (Client.loading c)
                        (Client.page c) (Client.viewCnt c) b
                        (Client.selectedBook c)) ;;
  emit (SetIsModalOpen b).

Definition setSelectedBook (s : string) : M unit :=
  updClient (fun c => Client.mkState (Client.searchKeyword c) (Client.data c) (Client.loading c)
                        (Client.page c) (Client.viewCnt c) (Client.isModalOpen c) s) ;;
  emit (SetSelectedBook s).

Definition setSearchKeyword (s : string) : M unit :=
  updClient (fun c => Client.mkState s (Client.data c) (Client.loading c)
                        (Client.page c) (Client.viewCnt c) (Client.isModalOpen c)
                        (Client.selectedBook c)) ;;
  emit (SetSearchKeyword s).

Section Render.

(** [process.env.NEXT_PUBLIC_API_URL] *)
Variable API_URL : string.

(** The values of [searchKeyword], [page] and [viewCnt] that the closures
    of one render see. *)
Variable searchKeyword : string.
Variables page viewCnt : Z.

Definition listUrl : string :=
  API_URL ++ "/books?page=" ++ numToString page
          ++ "&viewCnt=" ++ numToString viewCnt
          ++ "&searchKeyword=" ++ searchKeyword.

Definition getBooks (ans : Answer BooksResponse) : M unit :=
  tryFinally
    (tryCatch
       (setLoading true ;;
        res <- fetch (mkRequest listUrl GET jsonHeaders None) ans ;;
        (if negb (ok res) then throw (newError (VStr "Failed to fetch books")) else ret tt) ;;
        result <- json res ;;
        setData result)
       (fun error => consoleError "Error fetching books:" error))
    (setLoading false).

Definition handleAddBook : M unit :=
  setSelectedBook "" ;;
  setIsModalOpen true.

Definition handleEditBook (bookId : string) : M unit :=
  setSelectedBook bookId ;;
  setIsModalOpen true.

Definition genericSaveError : string := "저장에 실패했습니다.".

Definition saveUrl (book : JsObject) : string :=
  API_URL ++ "/books"
          ++ (if truthy (getProp book "id") then "/" ++ toString (getProp book "id") else "").

Definition saveMethod (book : JsObject) : Method :=
  if truthy (getProp book "id") then PUT else POST.

(** [handleSaveBook]; [ans] answers the save request and [refresh] the
    list request of the [getBooks()] call, which is not awaited: it
    touches [data] and [loading] of the list only and is run here to its
    end. *)
Definition handleSaveBook (ans : Answer ErrorData) (refresh : Answer BooksResponse)
    (book : JsObject) (formData : FormData) : M unit :=
  tryCatch
    (let url := saveUrl book in
     let method := saveMethod book in
     res <- fetch (mkRequest url method [] (Some formData)) ans ;;
     (if negb (ok res) then
        errorData <- json res ;;
        throw (newError (jsOr (message errorData) (VStr genericSaveError)))
      else ret tt) ;;
     getBooks refresh)
    (fun error =>
       consoleError "Error saving book:" error ;;
       throw error).

Definition handleDelBook (ans : Answer ErrorData) (refresh : Answer BooksResponse)
    (bookId : string) : M unit :=
  tryCatch
    (let url := API_URL ++ "/books/" ++ bookId in
     let method := DELETE in
     res <- fetch (mkRequest url method jsonHeaders None) ans ;;
     (if negb (ok res) then
        errorData <- json res ;;
        throw (newError (jsOr (message errorData) (VStr genericSaveError)))
      else ret tt) ;;
     getBooks refresh)
    (fun error =>
       consoleError "Error saving book:" error ;;
       throw error).

(** [handleSearch]: [e.preventDefault()] does nothing to the state.  The
    [getBooks] that is called is the closure of this render; its URL is
    built from this render's [page], not from the value just set. *)
Definition handleSearch (ans : Answer BooksResponse) : M unit :=
  setPage 1 ;;
  getBooks ans.

Definition handlePageChange (newPage : Z) : M unit :=
  setPage newPage.

(** [useEffect(() => { getBooks(); }, [page, viewCnt, searchKeyword])] *)
Definition Deps : Type := (Z * Z * string)%type.

Definition sameDeps (a b : Deps) : bool :=
  let '(p1, v1, k1) := a in
  let '(p2, v2, k2) := b in
  (p1 =? p2) && (v1 =? v2) && String.eqb k1 k2.

Definition useEffect (prev : option Deps) (ans : Answer BooksResponse) : M unit :=
  match prev with
  | None => getBooks ans
  | Some d => if sameDeps d (page, viewCnt, searchKeyword) then ret tt else getBooks ans
  end.

(** [onClose={() => setIsModalOpen(false)}] *)
Definition onClose : M unit := setIsModalOpen false.

(** Submitting the form of the modal that this render mounted:
    [onSave={handleSaveBook}]. *)
Definition submit (ans : Answer ErrorData) (refresh : Answer BooksResponse) : M unit :=
  BookModal.handleSubmit (handleSaveBook ans refresh) onClose.

End Render.

End BooksClient.

(** ** What a render shows and binds *)

Module View.

(** The pagination bar: the buttons "이전" and "다음" around one button per
    page of the window.  [target] is the argument that [onClick] passes to
    [handlePageChange]; [active] marks the highlighted button
    ([paging === page]). *)
Inductive Label : Type :=
| Prev
| PageNo (n : Z)
| Next.

Record Button : Type := mkButton {
  label : Label;
  disabled : bool;
  target : Z;
  active : bool
}.

(** [{data && data.list && data.list.length > 0 && (...)}] *)
Definition paginationBar (page : Z) (data : option BooksResponse) : list Button :=
  match data with
  | None => []
  | Some d =>
      match list_ d with
      | [] => []
      | _ :: _ =>
          (mkButton Prev (page =? 1) (page - 1) false
           :: map (fun paging => mkButton (PageNo paging) false paging (paging =? page))
                  (Pagination.getPaginationRange page data)
           ++ [mkButton Next false (page + 1) false])%list
      end
  end.

(** A click on a button of the bar; a disabled button fires nothing. *)
Definition click (b : Button) : M unit :=
  if disabled b then ret tt else BooksClient.handlePageChange (target b).

(** The list area: the line "로딩 중..." while loading, the rows of the
    books, the one line that [BooksList] shows for an empty list, or the
    line "데이터를 불러올 수 없습니다." when nothing was ever loaded. *)
Inductive ListArea : Type :=
| Loading
| Rows (books : list JsObject)
| Empty (text : string)
| Unavailable.

Definition noBooksText : string := "도서 정보가 없습니다.".

(** [function BooksList] *)
Definition BooksList (books : list JsObject) (responseMessage : string) : ListArea :=
  match books with
  | _ :: _ => Rows books
  | [] => Empty (toString (jsOr (VStr responseMessage) (VStr noBooksText)))
  end.

(** [{loading ? ... : data ? <BooksList .../> : ...}] *)
Definition listArea (c : Client.State) : ListArea :=
  if Client.loading c then Loading
  else match Client.data c with
       | Some data => BooksList (list_ data) (responseMessage data)
       | None => Unavailable
       end.

End View.

(** The handlers and effects of the render that shows the current world:
    their closures see the values the cells hold now, and the modal gets
    [bookId={selectedBook}] and [isOpen={isModalOpen}]. *)
Module Rendered.

Section Env.

Variable API_URL : string.

Definition deps (w : World) : BooksClient.Deps :=
  (Client.page (client w), Client.viewCnt (client w), Client.searchKeyword (client w)).

Definition modalDeps (w : World) : BookModal.Deps :=
  (Client.selectedBook (client w), Client.isModalOpen (client w)).

Definition getBooks (ans : Answer BooksResponse) : M unit :=
  fun w =>
    BooksClient.getBooks API_URL (Client.searchKeyword (client w))
      (Client.page (client w)) (Client.viewCnt (client w)) ans w.

Definition handleSearch (ans : Answer BooksResponse) : M unit :=
  fun w =>
    BooksClient.handleSearch API_URL (Client.searchKeyword (client w))
      (Client.page (client w)) (Client.viewCnt (client w)) ans w.

(** The list effect after a render; [prev] holds the dependencies of the
    render before. *)
Definition listEffect (prev : option BooksClient.Deps) (ans : Answer BooksResponse) : M unit :=
  fun w =>
    BooksClient.useEffect API_URL (Client.searchKeyword (client w))
      (Client.page (client w)) (Client.viewCnt (client w)) prev ans w.

(** The effect of the modal after a render. *)
Definition modalEffect (prev : option BookModal.Deps) (ans : Answer DetailBody) : M unit :=
  fun w =>
    BookModal.useEffect API_URL prev (Client.selectedBook (client w))
      (Client.isModalOpen (client w)) ans w.

Definition submit (ans : Answer ErrorData) (refresh : Answer BooksResponse) : M unit :=
  fun w =>
    BooksClient.submit API_URL (Client.searchKeyword (client w))
      (Client.page (client w)) (Client.viewCnt (client w)) ans refresh w.

Definition handleDelBook (ans : Answer ErrorData) (refresh : Answer BooksResponse)
    (bookId : string) : M unit :=
  fun w =>
    BooksClient.handleDelBook API_URL (Client.searchKeyword (client w))
      (Client.page (client w)) (Client.viewCnt (client w)) ans refresh bookId w.

Definition paginationBar (w : World) : list View.Button :=
  View.paginationBar (Client.page (client w)) (Client.data (client w)).

End Env.

End Rendered.

(** First page of the window: five before the current page, but not past
    the last full window and not before page 1. *)
Definition windowStart (page total : Z) : Z :=
  Z.max 1 (Z.min (page - 5) (total - 9)).

(** The value that a save or delete throws for an answer of the network,
    if it throws: the rejection of the request, what reading the error
    body threw, or a new Error with the server's message or the generic
    text. *)
Definition failureOf (ans : Answer ErrorData) : option Thrown :=
  match ans with
  | Rejects e => Some e
  | Responds (mkResponse true _) => None
  | Responds (mkResponse false (inl e)) => Some e
  | Responds (mkResponse false (inr errorData)) =>
      Some (newError (jsOr (message errorData) (VStr BooksClient.genericSaveError)))
  end.

(** The requests of a trace, in the order they went out. *)
Fixpoint requestsOf (t : list Event) : list Request :=
  match t with
  | [] => []
  | Fetch req :: rest => req :: requestsOf rest
  | _ :: rest => requestsOf rest
  end.

(** The console messages of a trace. *)
Fixpoint consoleOf (t : list Event) : list (string * Thrown) :=
  match t with
  | [] => []
  | ConsoleError label e :: rest => (label, e) :: consoleOf rest
  | _ :: rest => consoleOf rest
  end.

(** A run of field edits, one [handleChange] per pair. *)
Fixpoint handleChanges (edits : list (string * string)) : M unit :=
  match edits with
  | [] => ret tt
  | (name, value) :: rest =>
      BookModal.handleChange name value ;; handleChanges rest
  end.

(** What counts as an open of the modal between two renders: the modal is
    shown now, and it was not mounted before, was closed before, or was
    showing another id. *)
Definition opens (prev : option BookModal.Deps) (bookId : string) (isOpen : bool) : Prop :=
  isOpen = true /\
  match prev with
  | None => True
  | Some (id0, wasOpen) => wasOpen = false \/ id0 <> bookId
  end.

(** The world after the first render: every [useState] cell holds its
    initial value and nothing has happened yet. *)
Definition initialWorld : World :=
  mkWorld (Modal.mkState initialBookState false "" None)
          (Client.mkState "" None false 1 10 false "")
          [].

(** A configuration used in examples. *)
Definition exampleApi : string := "http://localhost:8080".

Definition savedBook : JsObject := setProp initialBookState "id" (VStr "42").

(** The world once the "add book" button has opened the modal. *)
Definition worldAfterAdd : World := snd (BooksClient.handleAddBook initialWorld).

(** [formData.getAll(name)] *)
Definition getAll (fd : FormData) (name : string) : list FormValue :=
  map snd (filter (fun e => String.eqb (fst e) name) fd).

(** [name in o] for own properties *)
Definition hasProp (o : JsObject) (name : string) : bool :=
  existsb (String.eqb name) (keys o).

(** The string a value is sent as, and the payload entry of a property. *)
Definition textOf (v : JsVal) : string := if truthy v then toString v else "".

Definition textEntry (kv : string * JsVal) : string * FormValue :=
  (fst kv, FText (textOf (snd kv))).

(** An event that is not a creating, updating or deleting request. *)
Definition notMutation (ev : Event) : Prop :=
  match ev with
  | Fetch req => method req = GET
  | _ => True
  end.

(** An event that does not write the pending thumbnail. *)
Definition keepsThumbnail (ev : Event) : Prop :=
  match ev with
  | SetThumbnail _ => False
  | _ => True
  end.

(** * Properties *)

(** ** Pagination window *)

Section PaginationFacts.

Import Pagination.

Lemma interval_empty lo hi : hi < lo -> interval lo hi = [].
Proof.
  intros H. unfold interval.
  replace (Z.to_nat (hi - lo + 1)) with 0%nat by lia. reflexivity.
Qed.

Lemma interval_step lo hi : lo <= hi -> interval lo hi = lo :: interval (lo + 1) hi.
Proof.
  intros H. unfold interval.
  replace (Z.to_nat (hi - lo + 1)) with (S (Z.to_nat (hi - (lo + 1) + 1))) by lia.
  cbn [seq map]. f_equal; [lia|].
  rewrite <- seq_shift, map_map.
  apply map_ext. intros k. lia.
Qed.

Lemma interval_length lo hi : List.length (interval lo hi) = Z.to_nat (hi - lo + 1).
Proof. unfold interval. now rewrite length_map, length_seq. Qed.

Lemma interval_nth lo hi k :
  (k < List.length (interval lo hi))%nat -> nth k (interval lo hi) 0 = lo + Z.of_nat k.
Proof.
  rewrite interval_length. intros H. unfold interval.
  rewrite (nth_indep _ 0 ((fun j => lo + Z.of_nat j) 0%nat))
    by (rewrite length_map, length_seq; exact H).
  rewrite (map_nth (fun j => lo + Z.of_nat j)), seq_nth by exact H.
  reflexivity.
Qed.

Lemma interval_bounds lo hi : Forall (fun p => lo <= p <= hi) (interval lo hi).
Proof.
  apply Forall_forall. intros p Hp. unfold interval in Hp.
  apply in_map_iff in Hp. destruct Hp as [k [<- Hk]].
  apply in_seq in Hk. lia.
Qed.

(** The loop appends the integers from [i] to [stop] to what it was given. *)
Lemma pushLoop_interval i stop range :
  pushLoop i stop range = (range ++ interval i stop)%list.
Proof.
  funelim (pushLoop i stop range).
  - match goal with IH : _ = (_ ++ interval _ _)%list |- _ => rewrite IH end.
    rewrite (interval_step i stop) by lia.
    rewrite <- app_assoc. reflexivity.
  - rewrite interval_empty by lia. now rewrite app_nil_r.
Qed.

Lemma getPaginationRange_spec page d :
  getPaginationRange page (Some d) = computeVisibleWindow_spec page (totalPages d).
Proof.
  unfold getPaginationRange, computeVisibleWindow_spec, maxVisiblePages.
  destruct (Z.min (page + 4) (totalPages d) - Z.max (page - 5) 1 + 1 <? 10);
    [destruct (Z.max (page - 5) 1 =? 1)|];
    rewrite pushLoop_interval; cbn [app]; f_equal; lia.
Qed.

(** The window is an interval [lo..hi] with [1 <= lo], [hi <= totalPages]
    and at most ten elements. *)
Lemma window_is_interval page total :
  exists lo hi,
    computeVisibleWindow_spec page total = interval lo hi /\
    1 <= lo /\ hi <= total /\ hi - lo + 1 <= 10.
Proof.
  unfold computeVisibleWindow_spec.
  destruct (Z.ltb_spec (Z.min (page + 4) total - Z.max (page - 5) 1 + 1) 10);
    [destruct (Z.eqb_spec (Z.max (page - 5) 1) 1)|];
    eexists; eexists; (split; [reflexivity|]); lia.
Qed.

(** C1: for page >= 1 and totalPages >= 0, [getPaginationRange] on a
    loaded page result yields exactly the sequence the specification's
    algorithm describes: tentative start and end, widening of the end when
    the start is 1, pulling back of the start otherwise, then every
    integer from start to end. *)
Theorem getPaginationRange_refines_spec (page : Z) (d : BooksResponse) :
  1 <= page -> 0 <= totalPages d ->
  getPaginationRange page (Some d) = computeVisibleWindow_spec page (totalPages d).
Proof. intros _ _. apply getPaginationRange_spec. Qed.

Lemma getPaginationRange_refines_spec_witness :
  let d := mkBooksResponse [] "" 20 200 in
  getPaginationRange 7 (Some d) = computeVisibleWindow_spec 7 (totalPages d).
Proof.
  apply (getPaginationRange_refines_spec 7 (mkBooksResponse [] "" 20 200));
    simpl; lia.
Defined.

(** C2: for page >= 1 and totalPages >= 0 the window is contiguous
    (neighbours differ by one), strictly ascending, has at most ten
    elements, all of them within [1, totalPages]; it is empty when
    totalPages is 0. *)
Theorem getPaginationRange_shape (page : Z) (d : BooksResponse) :
  1 <= page -> 0 <= totalPages d ->
  let w := getPaginationRange page (Some d) in
  (forall k, (S k < List.length w)%nat -> nth (S k) w 0 = nth k w 0 + 1) /\
  (forall i j, (i < j < List.length w)%nat -> nth i w 0 < nth j w 0) /\
  (List.length w <= 10)%nat /\
  Forall (fun p => 1 <= p <= totalPages d) w /\
  (totalPages d = 0 -> w = []).
Proof.
  intros _ _ w. subst w. rewrite getPaginationRange_spec.
  destruct (window_is_interval page (totalPages d)) as (lo & hi & -> & Hlo & Hhi & Hlen).
  repeat split.
  - intros k Hk. rewrite !interval_nth by lia. lia.
  - intros i j Hij. rewrite !interval_nth by lia. lia.
  - rewrite interval_length. lia.
  - eapply Forall_impl; [|apply interval_bounds]. cbv beta. intros p Hp. lia.
  - intros H0. apply interval_empty. lia.
Qed.

Lemma getPaginationRange_shape_witness :
  let w := getPaginationRange 7 (Some (mkBooksResponse [] "" 20 200)) in
  (List.length w <= 10)%nat /\ Forall (fun p => 1 <= p <= 20) w.
Proof.
  pose proof (getPaginationRange_shape 7 (mkBooksResponse [] "" 20 200)) as H.
  simpl in H. specialize (H ltac:(lia) ltac:(lia)).
  destruct H as (_ & _ & Hlen & Hall & _). split; assumption.
Defined.

End PaginationFacts.

(** C3 (as the code has it): the window is [1,2,3] for page 1 of 3 pages,
    [2..11] for page 7 of 20 pages, and empty when there are 0 pages,
    whatever the current page. *)
Theorem getPaginationRange_examples :
  (forall l m c, Pagination.getPaginationRange 1 (Some (mkBooksResponse l m 3 c)) = [1; 2; 3]) /\
  (forall l m c, Pagination.getPaginationRange 7 (Some (mkBooksResponse l m 20 c))
                 = [2; 3; 4; 5; 6; 7; 8; 9; 10; 11]) /\
  (forall page l m c, Pagination.getPaginationRange page (Some (mkBooksResponse l m 0 c)) = []).
Proof.
  split; [|split].
  - intros. reflexivity.
  - intros. reflexivity.
  - intros. rewrite getPaginationRange_spec.
    destruct (window_is_interval page 0) as (lo & hi & E & Hlo & Hhi & _).
    cbn [totalPages]. rewrite E. apply interval_empty. lia.
Qed.

(** For page 7 of 20 pages the window does not start at 3: the stated
    example [3..12] is not what the function returns. *)
Lemma getPaginationRange_page7_not_3_to_12 :
  Pagination.getPaginationRange 7 (Some (mkBooksResponse [] "" 20 200))
  <> [3; 4; 5; 6; 7; 8; 9; 10; 11; 12].
Proof. vm_compute. discriminate. Qed.

(** ** Running handlers *)

(** Evaluate a handler on a symbolic world and flatten the trace. *)
Ltac run := cbn; rewrite <- ?app_assoc; cbn [app].

(** Split on what the network does: the promise rejects, the response is
    ok, the response is not ok and its body does or does not parse. *)
Ltac answer_cases ans :=
  let e := fresh "e" in
  let isOk := fresh "isOk" in
  let parsed := fresh "parsed" in
  destruct ans as [e | [isOk parsed]];
  [ | destruct isOk; destruct parsed as [e | parsed] ].

Lemma numToString_nonempty n : numToString n <> "".
Proof.
  unfold numToString. destruct (Z.to_int n) as [u | u]; cbn.
  - destruct u; cbn; discriminate.
  - discriminate.
Qed.

(** ** Saving *)

Section SaveFacts.

Import BooksClient.

Variable API_URL : string.
Variable searchKeyword : string.
Variables page viewCnt : Z.

(** C6: a refresh never throws; when the list fetch fails (the promise
    rejects, the response is not ok, or its body does not parse) the
    stored page result and every other cell stay as they were and the
    failure is logged to the console; when it succeeds the stored page
    result is the response; the loading flag is false afterwards in every
    case. *)
Theorem getBooks_settles (ans : Answer BooksResponse) (w : World) :
  let r := getBooks API_URL searchKeyword page viewCnt ans w in
  let c := client w in
  fst r = Returned tt /\
  modal (snd r) = modal w /\
  client (snd r) =
    Client.mkState (Client.searchKeyword c)
      (match ans with
       | Responds (mkResponse true (inr result)) => Some result
       | _ => Client.data c
       end)
      false (Client.page c) (Client.viewCnt c) (Client.isModalOpen c)
      (Client.selectedBook c) /\
  match ans with
  | Responds (mkResponse true (inr result)) =>
      Forall (fun ev => match ev with ConsoleError _ _ => False | _ => True end)
             (skipn (List.length (trace w)) (trace (snd r)))
  | _ =>
      exists e pre post,
        trace (snd r) =
          (trace w ++ pre ++ ConsoleError "Error fetching books:" e :: post)%list /\
        Forall (fun ev => match ev with SetData _ => False | _ => True end)
               (pre ++ post)%list
  end.
Proof.
  answer_cases ans; run; repeat split.
  - exists e. eexists [_; _]. eexists. split; [reflexivity|].
    repeat constructor.
  - exists e. eexists [_; _]. eexists. split; [reflexivity|].
    repeat constructor.
  - rewrite skipn_app, skipn_all, Nat.sub_diag. cbn. repeat constructor.
  - eexists. eexists [_; _]. eexists. split; [reflexivity|].
    repeat constructor.
  - eexists. eexists [_; _]. eexists. split; [reflexivity|].
    repeat constructor.
Qed.

(** C4: the first event of [handleSaveBook] is the save request, and no
    other creating or updating request follows; its body is the payload
    it was given; when [id] is the empty string it is a POST to
    [/books], otherwise a PUT to [/books/{id}]. *)
Theorem handleSaveBook_request (ans : Answer ErrorData) (refresh : Answer BooksResponse)
    (book : JsObject) (formData : FormData) (w : World) (id : string) :
  getProp book "id" = VStr id ->
  exists sent rest,
    trace (snd (handleSaveBook API_URL searchKeyword page viewCnt
                  ans refresh book formData w)) =
      (trace w ++ Fetch sent :: rest)%list /\
    Forall notMutation rest /\
    body sent = Some formData /\
    (id = "" -> method sent = POST /\ url sent = API_URL ++ "/books") /\
    (id <> "" -> method sent = PUT /\ url sent = API_URL ++ "/books/" ++ id).
Proof.
  intros Hid.
  exists (mkRequest (saveUrl API_URL book) (saveMethod book) [] (Some formData)).
  assert (Hreq :
    (id = "" -> saveMethod book = POST /\ saveUrl API_URL book = API_URL ++ "/books") /\
    (id <> "" -> saveMethod book = PUT /\ saveUrl API_URL book = API_URL ++ "/books/" ++ id)).
  { unfold saveMethod, saveUrl. rewrite Hid. cbn.
    destruct (String.eqb_spec id ""); cbn; split; intros; try contradiction;
      split; reflexivity. }
  answer_cases ans; try (answer_cases refresh); run;
    (eexists; split; [reflexivity|]; split; [repeat constructor|]; split;
     [reflexivity | exact Hreq]).
Qed.

End SaveFacts.

Lemma handleSaveBook_request_witness :
  (exists sent rest,
     trace (snd (BooksClient.handleSaveBook exampleApi "" 1 10
                   (Responds (mkResponse true (inl (ErrorObj ""))))
                   (Rejects (ErrorObj "offline")) initialBookState [] initialWorld)) =
       (trace initialWorld ++ Fetch sent :: rest)%list /\
     method sent = POST /\ url sent = "http://localhost:8080/books") /\
  (exists sent rest,
     trace (snd (BooksClient.handleSaveBook exampleApi "" 1 10
                   (Responds (mkResponse true (inl (ErrorObj ""))))
                   (Rejects (ErrorObj "offline")) savedBook [] initialWorld)) =
       (trace initialWorld ++ Fetch sent :: rest)%list /\
     method sent = PUT /\ url sent = "http://localhost:8080/books/42").
Proof.
  split.
  - destruct (handleSaveBook_request exampleApi "" 1 10
                (Responds (mkResponse true (inl (ErrorObj ""))))
                (Rejects (ErrorObj "offline")) initialBookState [] initialWorld ""
                eq_refl) as (sent & rest & Ht & _ & _ & Hnew & _).
    exists sent, rest. split; [exact Ht | exact (Hnew eq_refl)].
  - destruct (handleSaveBook_request exampleApi "" 1 10
                (Responds (mkResponse true (inl (ErrorObj ""))))
                (Rejects (ErrorObj "offline")) savedBook [] initialWorld "42"
                eq_refl) as (sent & rest & Ht & _ & _ & _ & Hold).
    exists sent, rest. split; [exact Ht | apply Hold; discriminate].
Defined.

(** ** Submitting the form *)

(** C5 (as the code has it): after a submit the loading flag of the form
    is false.  When the save request is answered ok, the modal is closed,
    no error is shown and a list request has gone out.  In every other
    case the modal stays as it was and the error string is the message of
    what was thrown.  For an answer that is not ok and whose body gives a
    [message], that is the string form of the message if it is truthy and
    the generic save text otherwise; it is the message itself for a
    non-empty string, and it is non-empty unless the message is an array
    (the array [[]] prints as the empty string).  When the request is
    rejected, or reading the error body or its [message] throws (a body
    that does not parse, the body [null]), it is the thrown Error's own
    message, or the generic submit text for a thrown value that is not an
    Error; it is then non-empty unless the Error's message is empty. *)
Theorem submit_outcome (API_URL searchKeyword : string) (page viewCnt : Z)
    (ans : Answer ErrorData) (refresh : Answer BooksResponse) (w : World) :
  let w' := snd (BooksClient.submit API_URL searchKeyword page viewCnt ans refresh w) in
  let thrown e :=
    Client.isModalOpen (client w') = Client.isModalOpen (client w) /\
    Modal.error (modal w') =
      match e with
      | ErrorObj message => message
      | NonError _ => BookModal.genericSubmitError
      end /\
    (e <> ErrorObj "" -> Modal.error (modal w') <> "") in
  Modal.loading (modal w') = false /\
  match ans with
  | Responds (mkResponse true _) =>
      Client.isModalOpen (client w') = false /\
      Modal.error (modal w') = "" /\
      exists pre post,
        trace w' =
          (trace w ++ pre ++
           Fetch (mkRequest (BooksClient.listUrl API_URL searchKeyword page viewCnt)
                            GET jsonHeaders None) :: post)%list
  | Responds (mkResponse false (inr errorData)) =>
      Client.isModalOpen (client w') = Client.isModalOpen (client w) /\
      Modal.error (modal w') =
        (if truthy (message errorData) then toString (message errorData)
         else BooksClient.genericSaveError) /\
      (forall s, message errorData = VStr s -> s <> "" -> Modal.error (modal w') = s) /\
      ((forall items, message errorData <> VArr items) -> Modal.error (modal w') <> "")
  | Responds (mkResponse false (inl e)) => thrown e
  | Rejects e => thrown e
  end.
Proof.
  assert (Hgeneric : forall e : Thrown, e <> ErrorObj "" ->
            match e with
            | ErrorObj message => message
            | NonError _ => BookModal.genericSubmitError
            end <> "").
  { intros [m | v] H; [|discriminate]. intros ->. now apply H. }
  answer_cases ans.
  - run. repeat split. now apply Hgeneric.
  - answer_cases refresh; run; repeat split;
      eexists [_; _; _; _], _; reflexivity.
  - answer_cases refresh; run; repeat split;
      eexists [_; _; _; _], _; reflexivity.
  - run. repeat split. now apply Hgeneric.
  - destruct parsed as [m].
    destruct m as [ | | [|] | | n | s | items];
      run; unfold jsOr; cbn [truthy];
      (split; [reflexivity|]); (split; [reflexivity|]).
    + split; [|split]; [reflexivity | discriminate | discriminate].
    + split; [|split]; [reflexivity | discriminate | discriminate].
    + split; [|split]; [reflexivity | discriminate | discriminate].
    + split; [|split]; [reflexivity | discriminate | discriminate].
    + split; [|split]; [reflexivity | discriminate | discriminate].
    + split; [|split].
      * destruct (n =? 0); reflexivity.
      * discriminate.
      * intros _. destruct (n =? 0); cbn; [discriminate | apply numToString_nonempty].
    + split; [|split].
      * destruct (String.eqb s ""); reflexivity.
      * intros s' E Hs'. injection E as ->.
        destruct (String.eqb_spec s' ""); [contradiction | reflexivity].
      * intros _. destruct (String.eqb_spec s ""); cbn; [discriminate | assumption].
    + split; [|split].
      * reflexivity.
      * discriminate.
      * intros H. now contradiction (H items).
Qed.

(** Four failing saves that the statement of the claim does not cover.
    A request rejected with a browser's network error shows that error's
    message, which is neither a message of the server nor one of the
    generic texts.  An answer that is not ok with the body
    [{"message": []}] leaves the error string empty, since the array is
    truthy and prints as nothing.  An answer that is not ok with the body
    [null] shows the TypeError of reading [message] off it.  A request
    rejected with an Error that has an empty message leaves the error
    string empty. *)
Lemma submit_error_not_always_fallback_or_nonempty :
  (let w' := snd (BooksClient.submit exampleApi "" 1 10
                    (Rejects (ErrorObj "Failed to fetch")) (Rejects (ErrorObj ""))
                    worldAfterAdd) in
   Client.isModalOpen (client w') = true /\
   Modal.error (modal w') = "Failed to fetch" /\
   Modal.error (modal w') <> BooksClient.genericSaveError /\
   Modal.error (modal w') <> BookModal.genericSubmitError) /\
  (let w' := snd (BooksClient.submit exampleApi "" 1 10
                    (Responds (mkResponse false (inr (mkErrorData (VArr [])))))
                    (Rejects (ErrorObj ""))
                    worldAfterAdd) in
   Client.isModalOpen (client w') = true /\
   Modal.error (modal w') = "") /\
  (let w' := snd (BooksClient.submit exampleApi "" 1 10
                    (Responds (mkResponse false
                       (inl (ErrorObj "Cannot read properties of null (reading 'message')"))))
                    (Rejects (ErrorObj ""))
                    worldAfterAdd) in
   Client.isModalOpen (client w') = true /\
   Modal.error (modal w') = "Cannot read properties of null (reading 'message')" /\
   Modal.error (modal w') <> BooksClient.genericSaveError /\
   Modal.error (modal w') <> BookModal.genericSubmitError) /\
  (let w' := snd (BooksClient.submit exampleApi "" 1 10
                    (Rejects (ErrorObj "")) (Rejects (ErrorObj ""))
                    worldAfterAdd) in
   Client.isModalOpen (client w') = true /\
   Modal.error (modal w') = "").
Proof. vm_compute. repeat split; discriminate. Qed.

Lemma submit_outcome_witness :
  (let w' := snd (BooksClient.submit exampleApi "" 1 10
                    (Rejects (ErrorObj "Failed to fetch")) (Rejects (ErrorObj ""))
                    worldAfterAdd) in
   Modal.loading (modal w') = false /\
   Client.isModalOpen (client w') = true /\
   Modal.error (modal w') <> "") /\
  (let w' := snd (BooksClient.submit exampleApi "" 1 10
                    (Responds (mkResponse false (inr (mkErrorData (VStr "duplicate title")))))
                    (Rejects (ErrorObj ""))
                    worldAfterAdd) in
   Modal.error (modal w') = "duplicate title" /\
   Modal.error (modal w') <> "").
Proof.
  split.
  - pose proof (submit_outcome exampleApi "" 1 10
                  (Rejects (ErrorObj "Failed to fetch")) (Rejects (ErrorObj ""))
                  worldAfterAdd) as H.
    cbv beta zeta iota in H. destruct H as (Hload & Hopen & _ & Hne).
    split; [exact Hload | split; [exact Hopen | apply Hne; discriminate]].
  - pose proof (submit_outcome exampleApi "" 1 10
                  (Responds (mkResponse false (inr (mkErrorData (VStr "duplicate title")))))
                  (Rejects (ErrorObj ""))
                  worldAfterAdd) as H.
    cbv beta zeta iota in H. destruct H as (_ & _ & _ & Hstr & Hne).
    split.
    + apply (Hstr "duplicate title"); [reflexivity | discriminate].
    + apply Hne. intros items. discriminate.
Defined.

(** ** Editing fields *)

Lemma getProp_setProp_same o k v : getProp (setProp o k v) k = v.
Proof.
  induction o as [| [k' v'] rest IH]; cbn.
  - now rewrite String.eqb_refl.
  - destruct (String.eqb k' k) eqn:E; cbn; rewrite E; [reflexivity | exact IH].
Qed.

Lemma getProp_setProp_other o k v k' : k' <> k -> getProp (setProp o k v) k' = getProp o k'.
Proof.
  intros Hne. induction o as [| [k0 v0] rest IH]; cbn.
  - destruct (String.eqb_spec k k'); [congruence | reflexivity].
  - destruct (String.eqb_spec k0 k) as [-> | Hk]; cbn.
    + destruct (String.eqb_spec k k'); [congruence | reflexivity].
    + destruct (String.eqb k0 k'); [reflexivity | exact IH].
Qed.

(** A property that exists keeps its place; the set of keys only grows by
    the name that was written. *)
Lemma keys_setProp_present o k v : hasProp o k = true -> keys (setProp o k v) = keys o.
Proof.
  unfold hasProp, keys. induction o as [| [k0 v0] rest IH]; cbn; [discriminate|].
  rewrite String.eqb_sym.
  destruct (String.eqb k0 k); cbn; [reflexivity|].
  intros H. now rewrite IH.
Qed.

Lemma handleChange_bookData name value w :
  Modal.bookData (modal (snd (BookModal.handleChange name value w))) =
  setProp (Modal.bookData (modal w)) name
    (if String.eqb name "booksAmount" || String.eqb name "selAmount"
     then jsOr (Number.parseInt value) (VNum 0)
     else VStr value).
Proof. reflexivity. Qed.

Lemma parseInt_or_zero value :
  jsOr (Number.parseInt value) (VNum 0) =
  match Number.parseInt value with VNum n => VNum n | _ => VNum 0 end.
Proof.
  unfold Number.parseInt.
  destruct (match Number.trimStart value with
            | String "-" rest => (-1, rest)
            | String "+" rest => (1, rest)
            | _ => (1, Number.trimStart value)
            end) as [sign s].
  destruct (match s with
            | String "0" (String "x" rest) => (16, rest)
            | String "0" (String "X" rest) => (16, rest)
            | _ => (10, s)
            end) as [radix s'].
  destruct (Number.readDigits radix s' None) as [n|]; [|reflexivity].
  unfold jsOr. cbn [truthy].
  destruct (Z.eqb_spec (sign * n) 0) as [-> | _]; reflexivity.
Qed.

(** C7: writing the quantity-on-hand field stores the integer that
    [parseInt] reads from the input, and 0 when it reads none (12 for
    "12", 0 for "abc"); writing any other field of the book stores the
    input string itself; properties other than the one written keep their
    values, and the properties stay the same ones in the same order. *)
Theorem handleChange_stores (w : World) :
  let before := Modal.bookData (modal w) in
  let after name value := Modal.bookData (modal (snd (BookModal.handleChange name value w))) in
  (forall value,
     getProp (after "booksAmount" value) "booksAmount" =
     match Number.parseInt value with VNum n => VNum n | _ => VNum 0 end) /\
  getProp (after "booksAmount" "12") "booksAmount" = VNum 12 /\
  getProp (after "booksAmount" "abc") "booksAmount" = VNum 0 /\
  (forall name value,
     name <> "booksAmount" -> name <> "selAmount" ->
     getProp (after name value) name = VStr value) /\
  Forall (fun name => forall value, getProp (after name value) name = VStr value)
         ["id"; "title"; "author"; "publisher"; "publishDt"; "bookDetails";
          "thumbSeq"; "sellAmount"] /\
  (forall name value k, k <> name -> getProp (after name value) k = getProp before k) /\
  (forall name value, hasProp before name = true -> keys (after name value) = keys before).
Proof.
  cbv zeta.
  assert (Hother : forall name value,
            name <> "booksAmount" -> name <> "selAmount" ->
            getProp (Modal.bookData (modal (snd (BookModal.handleChange name value w)))) name
            = VStr value).
  { intros name value H1 H2. rewrite handleChange_bookData, getProp_setProp_same.
    destruct (String.eqb_spec name "booksAmount"); [contradiction|].
    destruct (String.eqb_spec name "selAmount"); [contradiction|]. reflexivity. }
  repeat split.
  - intros value. rewrite handleChange_bookData, getProp_setProp_same. cbn [String.eqb orb].
    change (("booksAmount" =? "booksAmount")%string) with true. cbn [orb].
    apply parseInt_or_zero.
  - rewrite handleChange_bookData, getProp_setProp_same. reflexivity.
  - rewrite handleChange_bookData, getProp_setProp_same. reflexivity.
  - exact Hother.
  - repeat constructor; intros value; apply Hother; discriminate.
  - intros name value k Hk. rewrite handleChange_bookData.
    now apply getProp_setProp_other.
  - intros name value H. rewrite handleChange_bookData.
    now apply keys_setProp_present.
Qed.

Lemma handleChange_stores_witness :
  let after name value :=
    Modal.bookData (modal (snd (BookModal.handleChange name value worldAfterAdd))) in
  getProp (after "title" "Dune") "title" = VStr "Dune" /\
  getProp (after "title" "Dune") "author" = VStr "" /\
  keys (after "title" "Dune") = keys initialBookState.
Proof.
  destruct (handleChange_stores worldAfterAdd) as (_ & _ & _ & Hname & _ & Hrest & Hkeys).
  split; [|split].
  - apply Hname; discriminate.
  - rewrite (Hrest "title" "Dune" "author"); [reflexivity | discriminate].
  - rewrite (Hkeys "title" "Dune"); reflexivity.
Defined.

(** C10: a write to the field named "sellAmount" stores the input string
    as it is, also when it spells a number, because the parsing branch is
    taken for the names "booksAmount" and "selAmount" only; under the name
    "selAmount" the parsed integer is stored, in a property of that
    name. *)
Theorem handleChange_sellAmount_verbatim (w : World) :
  let after name value := Modal.bookData (modal (snd (BookModal.handleChange name value w))) in
  (forall v, getProp (after "sellAmount" v) "sellAmount" = VStr v) /\
  getProp (after "sellAmount" "12") "sellAmount" = VStr "12" /\
  (forall name v,
     (exists n, getProp (after name v) name = VNum n /\ VStr v <> VNum n) /\
       (name = "booksAmount" \/ name = "selAmount")
     \/ getProp (after name v) name = VStr v /\
        name <> "booksAmount" /\ name <> "selAmount") /\
  (forall v, getProp (after "selAmount" v) "selAmount" =
             match Number.parseInt v with VNum n => VNum n | _ => VNum 0 end).
Proof.
  cbv zeta. repeat split.
  - intros v. rewrite handleChange_bookData, getProp_setProp_same. reflexivity.
  - rewrite handleChange_bookData, getProp_setProp_same. reflexivity.
  - intros name v. rewrite handleChange_bookData, getProp_setProp_same.
    destruct (String.eqb_spec name "booksAmount") as [-> | H1]; cbn [orb].
    + left. rewrite parseInt_or_zero. split; [|now left].
      destruct (Number.parseInt v); eexists; split; try reflexivity; discriminate.
    + destruct (String.eqb_spec name "selAmount") as [-> | H2].
      * left. rewrite parseInt_or_zero. split; [|now right].
        destruct (Number.parseInt v); eexists; split; try reflexivity; discriminate.
      * right. repeat split; assumption.
  - intros v. rewrite handleChange_bookData, getProp_setProp_same.
    apply parseInt_or_zero.
Qed.

(** ** Opening the modal *)

Lemma useEffect_on_open API_URL prev bookId isOpen ans :
  opens prev bookId isOpen ->
  BookModal.useEffect API_URL prev bookId isOpen ans = BookModal.effect API_URL bookId ans.
Proof.
  intros [-> Hprev]. destruct prev as [[id0 wasOpen]|]; [|reflexivity].
  unfold BookModal.useEffect, BookModal.sameDeps. cbn [fst snd].
  destruct Hprev as [-> | Hid].
  - cbn. now rewrite andb_false_r.
  - destruct (String.eqb_spec id0 bookId); [contradiction | reflexivity].
Qed.

(** C8: on every open of the modal the effect runs, and the first thing
    it does is to set the pending thumbnail to empty; nothing later in the
    effect writes the thumbnail, so it is empty afterwards.  Only then,
    without an id, the book is reset to the blank template; with an id the
    detail request for that id goes out and the book becomes the [obj] of
    an ok, readable response (and stays as it was otherwise). *)
Theorem open_resets_thumbnail_first (API_URL : string) (prev : option BookModal.Deps)
    (bookId : string) (isOpen : bool) (ans : Answer DetailBody) (w : World) :
  opens prev bookId isOpen ->
  let w' := snd (BookModal.useEffect API_URL prev bookId isOpen ans w) in
  exists rest,
    trace w' = (trace w ++ SetThumbnail None :: rest)%list /\
    Forall keepsThumbnail rest /\
    Modal.thumbnail (modal w') = None /\
    (bookId = "" ->
       rest = [SetBookData initialBookState] /\
       Modal.bookData (modal w') = initialBookState) /\
    (bookId <> "" ->
       (exists later,
          rest = SetModalLoading true
                 :: Fetch (mkRequest (API_URL ++ "/books/" ++ bookId) GET jsonHeaders None)
                 :: later) /\
       Modal.bookData (modal w') =
         match ans with
         | Responds (mkResponse true (inr result)) => obj result
         | _ => Modal.bookData (modal w)
         end).
Proof.
  intros Hopen. rewrite (useEffect_on_open _ _ _ _ _ Hopen).
  unfold BookModal.effect. cbn [truthy].
  destruct (String.eqb_spec bookId "") as [-> | Hid]; cbn [negb].
  - run. eexists. split; [reflexivity|].
    split; [repeat constructor|]. split; [reflexivity|].
    split; [intros _; split; reflexivity|].
    intros Hne. now contradiction Hne.
  - answer_cases ans; run; eexists; (split; [reflexivity|]);
      (split; [repeat constructor|]); (split; [reflexivity|]);
      (split; [intros ->; now contradiction Hid|]);
      intros _; (split; [eexists; reflexivity | reflexivity]).
Qed.

Lemma open_resets_thumbnail_first_witness :
  let stale :=
    mkWorld (Modal.mkState savedBook false "" (Some (mkFile "old.png")))
            (Client.mkState "" None false 1 10 true "7") [] in
  let w' := snd (BookModal.useEffect exampleApi (Some ("42", true)) "7" true
                   (Responds (mkResponse true (inr (mkDetailBody initialBookState))))
                   stale) in
  exists rest,
    trace w' = SetThumbnail None :: rest /\
    Modal.thumbnail (modal w') = None.
Proof.
  destruct (open_resets_thumbnail_first exampleApi (Some ("42", true)) "7" true
              (Responds (mkResponse true (inr (mkDetailBody initialBookState))))
              (mkWorld (Modal.mkState savedBook false "" (Some (mkFile "old.png")))
                       (Client.mkState "" None false 1 10 true "7") []))
    as (rest & Ht & _ & Hthumb & _).
  - split; [reflexivity | right; discriminate].
  - exists rest. split; [exact Ht | exact Hthumb].
Defined.

(** ** The multipart payload *)

Lemma appendEntries_map bookData formData :
  BookModal.appendEntries formData bookData = (formData ++ map textEntry bookData)%list.
Proof.
  revert formData. induction bookData as [| [k v] rest IH]; intros formData.
  - cbn. now rewrite app_nil_r.
  - cbn [BookModal.appendEntries fold_left]. fold (BookModal.appendEntries).
    change (fold_left _ rest ?fd) with (BookModal.appendEntries fd rest).
    rewrite IH. unfold append. rewrite <- app_assoc. reflexivity.
Qed.

Lemma getAll_app fd1 fd2 name :
  getAll (fd1 ++ fd2)%list name = (getAll fd1 name ++ getAll fd2 name)%list.
Proof. unfold getAll. now rewrite filter_app, map_app. Qed.

Lemma getAll_absent o name :
  ~ In name (keys o) -> getAll (map textEntry o) name = [] /\ hasProp o name = false.
Proof.
  unfold hasProp, keys, getAll.
  induction o as [| [k v] rest IH]; cbn; [now split|].
  intros Hnot.
  destruct (String.eqb_spec k name) as [-> | Hk]; [exfalso; apply Hnot; now left|].
  destruct (String.eqb_spec name k) as [-> | _]; [contradiction|].
  cbn. apply IH. intros Hin. apply Hnot. now right.
Qed.

Lemma getAll_textEntries o name :
  NoDup (keys o) ->
  getAll (map textEntry o) name =
  if hasProp o name then [FText (textOf (getProp o name))] else [].
Proof.
  induction o as [| [k v] rest IH]; intros Hnd; [reflexivity|].
  cbn in Hnd. inversion Hnd as [| ? ? Hnot Hrest]; subst.
  unfold hasProp, getAll. cbn.
  destruct (String.eqb_spec k name) as [-> | Hk].
  - rewrite String.eqb_refl. cbn.
    destruct (getAll_absent rest name Hnot) as [E _]. unfold getAll in E.
    now rewrite E.
  - destruct (String.eqb_spec name k) as [-> | _]; [contradiction|]. cbn.
    apply IH. exact Hrest.
Qed.

(** C9: the payload holds, in the order of the book's properties, one
    text entry per property, named after it and carrying the string form
    of its value, or the empty string when the value is falsy (a quantity
    of 0, an empty string, [null], [undefined]); after them it holds one
    file entry named "thumbnail" exactly when a pending thumbnail is
    present, and no other entry.  For a book whose property names are
    distinct, [getAll] of a name therefore yields exactly one text value
    for each property, followed by the file for the name "thumbnail". *)
Theorem buildFormData_entries (bookData : JsObject) (thumbnail : option File) :
  let fd := BookModal.buildFormData bookData thumbnail in
  let fileValues := match thumbnail with Some file => [FFile file] | None => [] end in
  fd = (map textEntry bookData ++ map (pair "thumbnail") fileValues)%list /\
  (forall name file, In (name, FFile file) fd <-> name = "thumbnail" /\ thumbnail = Some file) /\
  List.length fd = (List.length bookData + List.length fileValues)%nat /\
  textOf (VNum 0) = "" /\
  (NoDup (keys bookData) ->
   forall name,
     getAll fd name =
     ((if hasProp bookData name then [FText (textOf (getProp bookData name))] else []) ++
      (if String.eqb name "thumbnail" then fileValues else []))%list).
Proof.
  cbv zeta.
  assert (Hfd : BookModal.buildFormData bookData thumbnail =
                (map textEntry bookData ++
                 map (pair "thumbnail")
                   match thumbnail with Some file => [FFile file] | None => [] end)%list).
  { unfold BookModal.buildFormData. rewrite appendEntries_map. cbn [app].
    destruct thumbnail; cbn; [reflexivity | now rewrite app_nil_r]. }
  rewrite Hfd. split; [reflexivity|]. split; [|split; [|split; [reflexivity|]]].
  - intros name file. rewrite in_app_iff. split.
    + intros [Hin | Hin].
      * apply in_map_iff in Hin. destruct Hin as [[k v] [E _]]. discriminate E.
      * destruct thumbnail as [f|]; cbn in Hin; [|contradiction].
        destruct Hin as [E | []]. inversion E. now split.
    + intros [-> ->]. right. now left.
  - rewrite length_app, !length_map. destruct thumbnail; reflexivity.
  - intros Hnd name. rewrite getAll_app, (getAll_textEntries _ _ Hnd). f_equal.
    unfold getAll. destruct thumbnail as [f|]; cbn [map filter fst].
    + rewrite (String.eqb_sym "thumbnail" name).
      destruct (String.eqb name "thumbnail"); reflexivity.
    + now destruct (String.eqb name "thumbnail").
Qed.

Lemma buildFormData_entries_witness :
  let fd := BookModal.buildFormData savedBook (Some (mkFile "cover.png")) in
  getAll fd "booksAmount" = [FText ""] /\
  getAll fd "id" = [FText "42"] /\
  getAll fd "thumbnail" = [FFile (mkFile "cover.png")].
Proof.
  destruct (buildFormData_entries savedBook (Some (mkFile "cover.png")))
    as (_ & _ & _ & _ & Hall).
  assert (Hnd : NoDup (keys savedBook)).
  { repeat constructor; cbn; intuition discriminate. }
  split; [|split].
  - rewrite (Hall Hnd "booksAmount"). reflexivity.
  - rewrite (Hall Hnd "id"). reflexivity.
  - rewrite (Hall Hnd "thumbnail"). reflexivity.
Defined.

(** * Further properties of the list controller *)

(** ** Where the window sits *)

Section WindowFacts.

Import Pagination.

Lemma In_interval lo hi p : In p (interval lo hi) <-> lo <= p <= hi.
Proof.
  unfold interval. rewrite in_map_iff. split.
  - intros [k [<- Hk]]. apply in_seq in Hk. lia.
  - intros H. exists (Z.to_nat (p - lo)). split; [lia|]. apply in_seq. lia.
Qed.

Lemma window_closed_form page total :
  computeVisibleWindow_spec page total =
  interval (windowStart page total) (Z.min total (windowStart page total + 9)).
Proof.
  unfold computeVisibleWindow_spec, windowStart.
  destruct (Z.ltb_spec (Z.min (page + 4) total - Z.max (page - 5) 1 + 1) 10);
    [destruct (Z.eqb_spec (Z.max (page - 5) 1) 1)|];
    f_equal; lia.
Qed.

(** X1: whatever the current page, the window of a loaded result is the
    run of pages that starts at [windowStart] (five before the current
    page, pulled back so that a full window fits before the last page, and
    never before page 1) and ends nine pages later or at the last page; it
    has min(10, totalPages) elements. *)
Theorem getPaginationRange_closed_form (page : Z) (d : BooksResponse) :
  let first := windowStart page (totalPages d) in
  getPaginationRange page (Some d) = interval first (Z.min (totalPages d) (first + 9)) /\
  List.length (getPaginationRange page (Some d)) = Z.to_nat (Z.min 10 (totalPages d)).
Proof.
  cbv zeta. rewrite getPaginationRange_spec, window_closed_form.
  split; [reflexivity|]. rewrite interval_length. unfold windowStart. lia.
Qed.

(** X2: a page number is a button of the window exactly when it lies
    between the window's first and last page; the current page is among
    the buttons exactly when it is an existing page, 1 <= page <=
    totalPages. *)
Theorem getPaginationRange_membership (page : Z) (d : BooksResponse) :
  (forall p, In p (getPaginationRange page (Some d)) <->
             windowStart page (totalPages d) <= p <=
             Z.min (totalPages d) (windowStart page (totalPages d) + 9)) /\
  (In page (getPaginationRange page (Some d)) <-> 1 <= page <= totalPages d).
Proof.
  rewrite getPaginationRange_spec, window_closed_form. split.
  - intros p. apply In_interval.
  - rewrite In_interval. unfold windowStart. lia.
Qed.

(** X3: with at most ten pages the window is all of them, wherever the
    current page is; away from both ends (6 <= page <= totalPages - 4) it
    is the ten pages from page - 5 to page + 4; near the end of a long
    list it is the last ten pages. *)
Theorem getPaginationRange_positions (page : Z) (d : BooksResponse) :
  (totalPages d <= 10 -> getPaginationRange page (Some d) = interval 1 (totalPages d)) /\
  (6 <= page <= totalPages d - 4 ->
   getPaginationRange page (Some d) = interval (page - 5) (page + 4)) /\
  (10 <= totalPages d -> totalPages d - 4 <= page ->
   getPaginationRange page (Some d) = interval (totalPages d - 9) (totalPages d)).
Proof.
  rewrite getPaginationRange_spec, window_closed_form. unfold windowStart.
  repeat split; intros; f_equal; lia.
Qed.

Lemma getPaginationRange_positions_witness :
  getPaginationRange 2 (Some (mkBooksResponse [] "" 4 200)) = [1; 2; 3; 4] /\
  getPaginationRange 9 (Some (mkBooksResponse [] "" 30 200))
  = [4; 5; 6; 7; 8; 9; 10; 11; 12; 13] /\
  getPaginationRange 29 (Some (mkBooksResponse [] "" 30 200))
  = [21; 22; 23; 24; 25; 26; 27; 28; 29; 30].
Proof.
  split; [|split].
  - destruct (getPaginationRange_positions 2 (mkBooksResponse [] "" 4 200)) as (H & _ & _).
    rewrite H; [reflexivity | simpl; lia].
  - destruct (getPaginationRange_positions 9 (mkBooksResponse [] "" 30 200)) as (_ & H & _).
    rewrite H; [reflexivity | simpl; lia].
  - destruct (getPaginationRange_positions 29 (mkBooksResponse [] "" 30 200)) as (_ & _ & H).
    rewrite H; [reflexivity | simpl; lia | simpl; lia].
Defined.

End WindowFacts.

(** ** The pagination bar *)

Section BarFacts.

Import Pagination.

Lemma filter_interval_eq page n : forall lo hi,
  Z.to_nat (hi - lo + 1) = n ->
  filter (fun p => p =? page) (interval lo hi) =
  if (lo <=? page) && (page <=? hi) then [page] else [].
Proof.
  induction n as [|n IH]; intros lo hi Hn.
  - rewrite interval_empty by lia.
    destruct (Z.leb_spec lo page), (Z.leb_spec page hi); cbn; try reflexivity; lia.
  - rewrite interval_step by lia. cbn [filter].
    rewrite (IH (lo + 1) hi) by lia.
    destruct (Z.eqb_spec lo page) as [-> | Hne].
    + rewrite Z.leb_refl.
      destruct (Z.leb_spec (page + 1) page); [lia|].
      destruct (Z.leb_spec page hi); [reflexivity | lia].
    + destruct (Z.leb_spec lo page), (Z.leb_spec (lo + 1) page), (Z.leb_spec page hi);
        cbn; try reflexivity; lia.
Qed.

Lemma filter_active_pages page l :
  filter View.active
    (map (fun paging => View.mkButton (View.PageNo paging) false paging (paging =? page)) l) =
  map (fun paging => View.mkButton (View.PageNo paging) false paging true)
    (filter (fun p => p =? page) l).
Proof.
  induction l as [|p l IH]; [reflexivity|]. cbn.
  destruct (p =? page); cbn; now rewrite IH.
Qed.

Lemma bar_active_buttons (page : Z) (d : BooksResponse) :
  list_ d <> [] ->
  filter View.active (View.paginationBar page (Some d)) =
  if (1 <=? page) && (page <=? totalPages d)
  then [View.mkButton (View.PageNo page) false page true]
  else [].
Proof.
  intros Hrows. unfold View.paginationBar.
  destruct (list_ d) as [|b bs] eqn:E; [contradiction|].
  cbn [filter View.active]. rewrite filter_app, filter_active_pages. cbn [filter View.active].
  rewrite app_nil_r, getPaginationRange_spec, window_closed_form.
  rewrite (filter_interval_eq page _ _ _ eq_refl). unfold windowStart.
  destruct (Z.leb_spec 1 page), (Z.leb_spec page (totalPages d)); cbn [andb].
  - destruct (Z.leb_spec (Z.max 1 (Z.min (page - 5) (totalPages d - 9))) page); [|lia].
    destruct (Z.leb_spec page
                (Z.min (totalPages d) (Z.max 1 (Z.min (page - 5) (totalPages d - 9)) + 9)));
      [reflexivity | lia].
  - destruct (Z.leb_spec page
                (Z.min (totalPages d) (Z.max 1 (Z.min (page - 5) (totalPages d - 9)) + 9)));
      [lia|]. now rewrite andb_false_r.
  - destruct (Z.leb_spec (Z.max 1 (Z.min (page - 5) (totalPages d - 9))) page);
      [lia | reflexivity].
  - destruct (Z.leb_spec (Z.max 1 (Z.min (page - 5) (totalPages d - 9))) page);
      [lia | reflexivity].
Qed.

(** X4: when the bar is shown (the loaded page has rows), exactly one of
    its buttons is highlighted if the current page is an existing page,
    and it is the button of that page; if the current page lies outside
    1..totalPages no button is highlighted. *)
Theorem paginationBar_active (page : Z) (d : BooksResponse) :
  list_ d <> [] ->
  filter View.active (View.paginationBar page (Some d)) =
  if (1 <=? page) && (page <=? totalPages d)
  then [View.mkButton (View.PageNo page) false page true]
  else [].
Proof. apply bar_active_buttons. Qed.

Lemma paginationBar_active_witness :
  filter View.active
    (View.paginationBar 3 (Some (mkBooksResponse [initialBookState] "" 5 200))) =
  [View.mkButton (View.PageNo 3) false 3 true].
Proof.
  rewrite (paginationBar_active 3 (mkBooksResponse [initialBookState] "" 5 200));
    [reflexivity | discriminate].
Defined.

(** X5: the bar keeps the current page at 1 or above: from a world whose
    page is at least 1, a click on any button of the bar that is shown
    leaves a page of at least 1, and changes no other cell of the list
    controller and nothing of the modal. *)
Theorem paginationBar_click_keeps_page_positive (w : World) (b : View.Button) :
  1 <= Client.page (client w) ->
  In b (Rendered.paginationBar w) ->
  let w' := snd (View.click b w) in
  1 <= Client.page (client w') /\
  modal w' = modal w /\
  client w' =
    Client.mkState (Client.searchKeyword (client w)) (Client.data (client w))
      (Client.loading (client w)) (Client.page (client w'))
      (Client.viewCnt (client w)) (Client.isModalOpen (client w))
      (Client.selectedBook (client w)).
Proof.
  intros Hpage Hin. unfold Rendered.paginationBar, View.paginationBar in Hin.
  destruct w as [m [kw data loading page viewCnt isOpen sel] t]. cbn in *.
  destruct data as [d|]; [|contradiction].
  destruct (list_ d) as [|r rs] eqn:E; [contradiction|].
  destruct Hin as [<- | Hin].
  - unfold View.click. cbn.
    destruct (Z.eqb_spec page 1); cbn; repeat split; lia.
  - apply in_app_iff in Hin. destruct Hin as [Hin | [<- | []]].
    + apply in_map_iff in Hin. destruct Hin as [p [<- Hp]].
      unfold View.click. cbn. repeat split.
      rewrite getPaginationRange_spec, window_closed_form in Hp.
      apply In_interval in Hp. unfold windowStart in Hp. lia.
    + unfold View.click. cbn. repeat split. lia.
Qed.

Lemma paginationBar_click_keeps_page_positive_witness :
  let w := mkWorld (Modal.mkState initialBookState false "" None)
             (Client.mkState "" (Some (mkBooksResponse [initialBookState] "" 5 200))
                false 1 10 false "") [] in
  1 <= Client.page (client (snd (View.click (View.mkButton View.Prev true 0 false) w))).
Proof.
  apply (paginationBar_click_keeps_page_positive
           (mkWorld (Modal.mkState initialBookState false "" None)
              (Client.mkState "" (Some (mkBooksResponse [initialBookState] "" 5 200))
                 false 1 10 false "") [])
           (View.mkButton View.Prev true 0 false)).
  - simpl. lia.
  - left. reflexivity.
Defined.

(** X6: the button "다음" is never disabled and there is no upper bound on
    the page: in every bar that is shown, a click on it sets the page to
    page + 1, also on the last page and beyond, and the bar of the same
    result then highlights no button; the button "이전" on page 1 is
    disabled and a click on it changes nothing. *)
Theorem next_button_has_no_upper_bound (w : World) (d : BooksResponse) :
  Client.data (client w) = Some d ->
  list_ d <> [] ->
  let next := View.mkButton View.Next false (Client.page (client w) + 1) false in
  let prev := View.mkButton View.Prev (Client.page (client w) =? 1)
                (Client.page (client w) - 1) false in
  In next (Rendered.paginationBar w) /\
  Client.page (client (snd (View.click next w))) = Client.page (client w) + 1 /\
  (totalPages d <= Client.page (client w) ->
   filter View.active (Rendered.paginationBar (snd (View.click next w))) = []) /\
  In prev (Rendered.paginationBar w) /\
  (Client.page (client w) = 1 -> View.click prev w = (Returned tt, w)).
Proof.
  intros Hdata Hrows.
  destruct w as [m [kw data loading page viewCnt isOpen sel] t]. cbn in *. subst data.
  split; [|split; [|split; [|split]]].
  - unfold Rendered.paginationBar, View.paginationBar. cbn.
    destruct (list_ d); [contradiction|].
    right. apply in_or_app. right. now left.
  - reflexivity.
  - intros Hlast.
    change (filter View.active (View.paginationBar (page + 1) (Some d)) = []).
    rewrite (bar_active_buttons (page + 1) d Hrows).
    destruct (Z.leb_spec (page + 1) (totalPages d)); [lia|]. now rewrite andb_false_r.
  - unfold Rendered.paginationBar, View.paginationBar. cbn.
    destruct (list_ d); [contradiction|]. now left.
  - intros ->. reflexivity.
Qed.

Lemma next_button_has_no_upper_bound_witness :
  let w := mkWorld (Modal.mkState initialBookState false "" None)
             (Client.mkState "" (Some (mkBooksResponse [initialBookState] "" 5 200))
                false 5 10 false "") [] in
  Client.page (client (snd (View.click (View.mkButton View.Next false 6 false) w))) = 6 /\
  filter View.active
    (Rendered.paginationBar (snd (View.click (View.mkButton View.Next false 6 false) w))) = [].
Proof.
  destruct (next_button_has_no_upper_bound
              (mkWorld (Modal.mkState initialBookState false "" None)
                 (Client.mkState "" (Some (mkBooksResponse [initialBookState] "" 5 200))
                    false 5 10 false "") [])
              (mkBooksResponse [initialBookState] "" 5 200) eq_refl)
    as (_ & Hpage & Hnone & _).
  - discriminate.
  - split; [exact Hpage | apply Hnone; simpl; lia].
Defined.

End BarFacts.

(** ** Searching, loading and what is shown *)

Lemma requestsOf_app t1 t2 : requestsOf (t1 ++ t2) = (requestsOf t1 ++ requestsOf t2)%list.
Proof.
  induction t1 as [|ev t1 IH]; [reflexivity|].
  destruct ev; cbn; rewrite IH; reflexivity.
Qed.

Lemma consoleOf_app t1 t2 : consoleOf (t1 ++ t2) = (consoleOf t1 ++ consoleOf t2)%list.
Proof.
  induction t1 as [|ev t1 IH]; [reflexivity|].
  destruct ev; cbn; rewrite IH; reflexivity.
Qed.

(** Evaluate a handler and read the requests and console lines off the
    trace. *)
Ltac observe :=
  run; rewrite ?requestsOf_app, ?consoleOf_app; cbn [requestsOf consoleOf app];
  rewrite ?app_nil_r.

(** X7: a search submit sets the page to 1, but the list request it sends
    itself still asks for the page of the render it was fired from; the
    list effect of the next render then sends a second request, for page
    1, exactly when that earlier page was not 1. *)
Theorem handleSearch_requests (API_URL : string) (ans again : Answer BooksResponse)
    (w : World) :
  let c := client w in
  let w1 := snd (Rendered.handleSearch API_URL ans w) in
  let w2 := snd (Rendered.listEffect API_URL (Some (Rendered.deps w)) again w1) in
  let request p :=
    mkRequest (BooksClient.listUrl API_URL (Client.searchKeyword c) p (Client.viewCnt c))
              GET jsonHeaders None in
  Client.page (client w1) = 1 /\
  requestsOf (trace w1) = (requestsOf (trace w) ++ [request (Client.page c)])%list /\
  requestsOf (trace w2) =
    (requestsOf (trace w1) ++ if Client.page c =? 1 then [] else [request 1])%list.
Proof.
  destruct w as [m [kw data loading page viewCnt isOpen sel] t].
  unfold Rendered.handleSearch, Rendered.listEffect, Rendered.deps,
    BooksClient.handleSearch, BooksClient.useEffect, BooksClient.sameDeps.
  cbn [client Client.page Client.viewCnt Client.searchKeyword].
  answer_cases ans; observe;
    (split; [reflexivity|]; split; [reflexivity|]);
    rewrite Z.eqb_refl, String.eqb_refl, !andb_true_r;
    destruct (page =? 1); cbn [trace];
    try (now rewrite app_nil_r);
    answer_cases again; observe; reflexivity.
Qed.

(** What [getBooks] leaves in the cells of the list controller. *)
Lemma getBooks_client API_URL kw page viewCnt (ans : Answer BooksResponse) (w : World) :
  client (snd (BooksClient.getBooks API_URL kw page viewCnt ans w)) =
  Client.mkState (Client.searchKeyword (client w))
    (match ans with
     | Responds (mkResponse true (inr result)) => Some result
     | _ => Client.data (client w)
     end)
    false (Client.page (client w)) (Client.viewCnt (client w))
    (Client.isModalOpen (client w)) (Client.selectedBook (client w)) /\
  modal (snd (BooksClient.getBooks API_URL kw page viewCnt ans w)) = modal w /\
  fst (BooksClient.getBooks API_URL kw page viewCnt ans w) = Returned tt.
Proof. answer_cases ans; run; repeat split. Qed.

(** X8: after [getBooks] has settled the list area never shows the
    loading line.  A successful load shows the rows of the response, or,
    when it has none, the server's message (the default text when that is
    empty).  A failed load shows what the previous result gave, and the
    "cannot load" line when there was none.  The pagination bar is shown
    exactly when rows are shown. *)
Theorem listArea_after_getBooks (API_URL : string) (ans : Answer BooksResponse) (w : World) :
  let c' := client (snd (Rendered.getBooks API_URL ans w)) in
  View.listArea c' <> View.Loading /\
  View.listArea c' =
    match ans with
    | Responds (mkResponse true (inr result)) =>
        match list_ result with
        | [] => View.Empty (if String.eqb (responseMessage result) ""
                            then View.noBooksText else responseMessage result)
        | _ => View.Rows (list_ result)
        end
    | _ =>
        match Client.data (client w) with
        | Some old => View.BooksList (list_ old) (responseMessage old)
        | None => View.Unavailable
        end
    end /\
  (View.paginationBar (Client.page c') (Client.data c') <> [] <->
   exists books, View.listArea c' = View.Rows books).
Proof.
  assert (Hlist : forall c : Client.State, Client.loading c = false ->
            View.listArea c <> View.Loading /\
            (View.paginationBar (Client.page c) (Client.data c) <> [] <->
             exists books, View.listArea c = View.Rows books)).
  { intros [kw data loading page viewCnt isOpen sel]. cbn. intros ->.
    unfold View.listArea, View.paginationBar, View.BooksList. cbn.
    destruct data as [d|]; [destruct (list_ d) as [|b bs]|]; split;
      try discriminate;
      try (split; [intros H; now contradiction H | intros [books H]; discriminate H]).
    split; [intros _; eexists; reflexivity | discriminate]. }
  cbv zeta. unfold Rendered.getBooks.
  destruct (getBooks_client API_URL (Client.searchKeyword (client w))
              (Client.page (client w)) (Client.viewCnt (client w)) ans w) as (-> & _ & _).
  split; [apply Hlist; reflexivity|]. split; [|apply Hlist; reflexivity].
  unfold View.listArea. cbn [Client.loading Client.data].
  answer_cases ans; try reflexivity.
  unfold View.BooksList. destruct (list_ parsed); [|reflexivity].
  unfold jsOr. cbn. now destruct (String.eqb (responseMessage parsed) "").
Qed.

(** * Further properties of the edit form *)

(** X9: [getBookDetail] never throws.  It sends one GET for
    [/books/{bookId}]; the form's book becomes the [obj] of an ok,
    readable response and is left as it was otherwise, in which case one
    line goes to the console; the loading flag is false afterwards and the
    error string, the pending thumbnail and the list controller are not
    touched. *)
Theorem getBookDetail_settles (API_URL bookId : string) (ans : Answer DetailBody) (w : World) :
  let r := BookModal.getBookDetail API_URL bookId ans w in
  fst r = Returned tt /\
  client (snd r) = client w /\
  modal (snd r) =
    Modal.mkState
      (match ans with
       | Responds (mkResponse true (inr result)) => obj result
       | _ => Modal.bookData (modal w)
       end)
      false (Modal.error (modal w)) (Modal.thumbnail (modal w)) /\
  requestsOf (trace (snd r)) =
    (requestsOf (trace w)
     ++ [mkRequest (API_URL ++ "/books/" ++ bookId) GET jsonHeaders None])%list /\
  consoleOf (trace (snd r)) =
    (consoleOf (trace w)
     ++ match ans with
        | Responds (mkResponse true (inr _)) => []
        | Responds (mkResponse true (inl e)) => [("Error fetching books:", e)]
        | Responds (mkResponse false _) =>
            [("Error fetching books:", ErrorObj "Failed to fetch books")]
        | Rejects e => [("Error fetching books:", e)]
        end)%list.
Proof.
  destruct w as [[bd ld er th] c t].
  answer_cases ans; observe; repeat split.
Qed.

Lemma buildFormData_files bookData thumbnail name file :
  In (name, FFile file) (BookModal.buildFormData bookData thumbnail) <->
  name = "thumbnail" /\ thumbnail = Some file.
Proof.
  unfold BookModal.buildFormData. rewrite appendEntries_map. cbn [app].
  assert (Htext : ~ In (name, FFile file) (map textEntry bookData)).
  { intros Hin. apply in_map_iff in Hin. destruct Hin as [[k v] [E _]]. discriminate E. }
  destruct thumbnail as [f|].
  - unfold append. rewrite in_app_iff. split.
    + intros [Hin | [E | []]]; [contradiction|]. inversion E. now split.
    + intros [-> E]. inversion E. right. now left.
  - split; [intros Hin; contradiction | intros [_ E]; discriminate E].
Qed.

(** X10: choosing files makes the first of them the pending thumbnail; a
    change event without a file (the dialog was cancelled) keeps the file
    chosen before.  Nothing else of the form changes, so the payload built
    afterwards carries that file, and only that one. *)
Theorem handleFileChange_keeps_or_takes_first (files : list File) (w : World) :
  let w' := snd (BookModal.handleFileChange files w) in
  let chosen := match files with f :: _ => Some f | [] => Modal.thumbnail (modal w) end in
  modal w' =
    Modal.mkState (Modal.bookData (modal w)) (Modal.loading (modal w))
      (Modal.error (modal w)) chosen /\
  client w' = client w /\
  (forall name file,
     In (name, FFile file)
        (BookModal.buildFormData (Modal.bookData (modal w')) (Modal.thumbnail (modal w')))
     <-> name = "thumbnail" /\ chosen = Some file).
Proof.
  destruct w as [[bd ld er th] c t].
  destruct files as [|f rest]; cbn -[BookModal.buildFormData];
    (split; [reflexivity|]; split; [reflexivity|]);
    intros name file; apply buildFormData_files.
Qed.

(** X11: whatever the props [onSave] and [onClose] do, [handleSubmit]
    itself never throws and ends with the loading flag false.  [onSave]
    gets the book of the form and the payload built from the book and the
    pending thumbnail.  When [onSave] throws, [onClose] is not run: the
    list controller is as [onSave] left it, and the error string is the
    thrown Error's message (the generic text for another value). *)
Theorem handleSubmit_any_props (onSave : JsObject -> FormData -> M unit) (onClose : M unit)
    (w : World) :
  let r := BookModal.handleSubmit onSave onClose w in
  let started := snd ((BookModal.setLoading true ;; BookModal.setError "")%js w) in
  let saved :=
    onSave (Modal.bookData (modal w))
      (BookModal.buildFormData (Modal.bookData (modal w)) (Modal.thumbnail (modal w)))
      started in
  fst r = Returned tt /\
  Modal.loading (modal (snd r)) = false /\
  (forall e, fst saved = Threw e ->
     client (snd r) = client (snd saved) /\
     Modal.bookData (modal (snd r)) = Modal.bookData (modal (snd saved)) /\
     Modal.error (modal (snd r)) =
       match e with
       | ErrorObj message => message
       | NonError _ => BookModal.genericSubmitError
       end) /\
  (fst saved = Returned tt -> fst (onClose (snd saved)) = Returned tt ->
     client (snd r) = client (snd (onClose (snd saved))) /\
     Modal.error (modal (snd r)) = Modal.error (modal (snd (onClose (snd saved))))).
Proof.
  cbv zeta. unfold BookModal.handleSubmit, bind, tryFinally, tryCatch.
  cbn [BookModal.setLoading BookModal.setError updModal emit getModal bind fst snd modal
       Modal.bookData Modal.thumbnail].
  unfold BookModal.setLoading, BookModal.setError, bind, updModal, emit, getModal.
  cbn [fst snd modal client trace Modal.bookData Modal.thumbnail Modal.loading Modal.error].
  match goal with
  | |- context [onSave ?b ?f ?w0] => destruct (onSave b f w0) as [[[]|e] w1] eqn:Esave
  end; cbn [fst snd].
  - destruct (onClose w1) as [[[]|e] w2] eqn:Eclose; cbn.
    + repeat split; intros; discriminate.
    + repeat split; intros; discriminate.
  - cbn. repeat split; intros; try discriminate.
    all: match goal with H : Threw _ = Threw _ |- _ => injection H as <- end; reflexivity.
Qed.

Lemma handleSubmit_any_props_witness :
  let r := BookModal.handleSubmit (fun _ _ => throw (ErrorObj "boom")) BooksClient.onClose
             worldAfterAdd in
  fst r = Returned tt /\
  Client.isModalOpen (client (snd r)) = true /\
  Modal.error (modal (snd r)) = "boom".
Proof.
  destruct (handleSubmit_any_props (fun _ _ => throw (ErrorObj "boom")) BooksClient.onClose
              worldAfterAdd) as (Hret & _ & Hthrown & _).
  destruct (Hthrown (ErrorObj "boom") eq_refl) as (Hclient & _ & Herr).
  split; [exact Hret|]. split; [now rewrite Hclient | exact Herr].
Defined.

(** ** Saving and deleting *)

Lemma submit_sends (API_URL : string) (ans : Answer ErrorData)
    (refresh : Answer BooksResponse) (w : World) :
  let book := Modal.bookData (modal w) in
  let c := client w in
  requestsOf (trace (snd (Rendered.submit API_URL ans refresh w))) =
  (requestsOf (trace w)
   ++ mkRequest (BooksClient.saveUrl API_URL book) (BooksClient.saveMethod book) []
        (Some (BookModal.buildFormData book (Modal.thumbnail (modal w))))
   :: match ans with
      | Responds (mkResponse true _) =>
          [mkRequest (BooksClient.listUrl API_URL (Client.searchKeyword c)
                        (Client.page c) (Client.viewCnt c))
                     GET jsonHeaders None]
      | _ => []
      end)%list.
Proof.
  destruct w as [[bd ld er th] [kw data loading page viewCnt isOpen sel] t].
  unfold Rendered.submit, BooksClient.submit, BookModal.handleSubmit.
  cbn [client modal Client.page Client.viewCnt Client.searchKeyword
       Modal.bookData Modal.thumbnail].
  answer_cases ans; try (answer_cases refresh); observe; reflexivity.
Qed.

(** X12: a submit sends exactly one save request, and its body is the
    payload built from the book and the pending thumbnail of the form, its
    method and URL chosen by the [id] of that book; one list request
    follows when the save is answered ok, and none otherwise. *)
Theorem submit_requests (API_URL : string) (ans : Answer ErrorData)
    (refresh : Answer BooksResponse) (w : World) :
  let book := Modal.bookData (modal w) in
  let c := client w in
  requestsOf (trace (snd (Rendered.submit API_URL ans refresh w))) =
  (requestsOf (trace w)
   ++ mkRequest (BooksClient.saveUrl API_URL book) (BooksClient.saveMethod book) []
        (Some (BookModal.buildFormData book (Modal.thumbnail (modal w))))
   :: match ans with
      | Responds (mkResponse true _) =>
          [mkRequest (BooksClient.listUrl API_URL (Client.searchKeyword c)
                        (Client.page c) (Client.viewCnt c))
                     GET jsonHeaders None]
      | _ => []
      end)%list.
Proof. apply submit_sends. Qed.

(** X13: [handleSaveBook] returns normally exactly when the save request
    is answered ok, also when the list request that follows fails.
    Otherwise it rethrows what was thrown, after one console line that
    carries the same value, and leaves every cell of the list controller
    as it was.  It never writes a cell of the form. *)
Theorem handleSaveBook_outcome (API_URL searchKeyword : string) (page viewCnt : Z)
    (ans : Answer ErrorData) (refresh : Answer BooksResponse)
    (book : JsObject) (formData : FormData) (w : World) :
  let r := BooksClient.handleSaveBook API_URL searchKeyword page viewCnt
             ans refresh book formData w in
  modal (snd r) = modal w /\
  match failureOf ans with
  | None =>
      fst r = Returned tt /\
      Forall (fun line => fst line <> "Error saving book:")
             (skipn (List.length (consoleOf (trace w))) (consoleOf (trace (snd r))))
  | Some e =>
      fst r = Threw e /\
      client (snd r) = client w /\
      consoleOf (trace (snd r)) = (consoleOf (trace w) ++ [("Error saving book:", e)])%list
  end.
Proof.
  destruct w as [m c t].
  answer_cases ans; try (answer_cases refresh); observe; repeat split;
    rewrite ?skipn_app, ?skipn_all, ?Nat.sub_diag; cbn; repeat constructor;
    cbn; discriminate.
Qed.

(** X14: [handleDelBook] sends one DELETE for [/books/{bookId}] with the
    JSON headers and no body, followed by one list request exactly when
    the answer is ok.  It returns normally exactly then; otherwise it
    rethrows what was thrown (for a readable error body, an Error with the
    server's message or the generic save text) after one console line
    under the label of the save handler, and leaves the list controller as
    it was.  It never writes a cell of the form. *)
Theorem handleDelBook_outcome (API_URL bookId : string) (ans : Answer ErrorData)
    (refresh : Answer BooksResponse) (w : World) :
  let r := Rendered.handleDelBook API_URL ans refresh bookId w in
  let c := client w in
  modal (snd r) = modal w /\
  requestsOf (trace (snd r)) =
    (requestsOf (trace w)
     ++ mkRequest (API_URL ++ "/books/" ++ bookId) DELETE jsonHeaders None
     :: match failureOf ans with
        | None => [mkRequest (BooksClient.listUrl API_URL (Client.searchKeyword c)
                                (Client.page c) (Client.viewCnt c))
                             GET jsonHeaders None]
        | Some _ => []
        end)%list /\
  match failureOf ans with
  | None => fst r = Returned tt
  | Some e =>
      fst r = Threw e /\
      client (snd r) = client w /\
      consoleOf (trace (snd r)) = (consoleOf (trace w) ++ [("Error saving book:", e)])%list
  end.
Proof.
  destruct w as [m [kw data loading page viewCnt isOpen sel] t].
  unfold Rendered.handleDelBook.
  cbn [client Client.page Client.viewCnt Client.searchKeyword].
  answer_cases ans; try (answer_cases refresh); observe; repeat split.
Qed.

(** ** Runs of edits *)

Lemma keys_setProp_absent o k v : hasProp o k = false -> keys (setProp o k v) = (keys o ++ [k])%list.
Proof.
  unfold hasProp, keys. induction o as [| [k0 v0] rest IH]; cbn; [reflexivity|].
  rewrite String.eqb_sym.
  destruct (String.eqb k0 k); cbn; [discriminate|].
  intros H. now rewrite IH.
Qed.

Lemma hasProp_In o k : hasProp o k = true <-> In k (keys o).
Proof.
  unfold hasProp. rewrite existsb_exists. split.
  - intros [x [Hin E]]. apply String.eqb_eq in E. now subst.
  - intros Hin. exists k. split; [assumption | apply String.eqb_refl].
Qed.

Lemma NoDup_keys_setProp o k v : NoDup (keys o) -> NoDup (keys (setProp o k v)).
Proof.
  intros Hnd. destruct (hasProp o k) eqn:E.
  - now rewrite keys_setProp_present.
  - rewrite keys_setProp_absent by assumption.
    apply NoDup_app; [assumption | repeat constructor; intros [] |].
    intros x Hin [<- | []]. apply hasProp_In in Hin. congruence.
Qed.

Lemma handleChanges_cons name value rest w :
  handleChanges ((name, value) :: rest) w =
  handleChanges rest (snd (BookModal.handleChange name value w)).
Proof. reflexivity. Qed.

Lemma handleChange_frame name value w :
  let w' := snd (BookModal.handleChange name value w) in
  client w' = client w /\
  Modal.loading (modal w') = Modal.loading (modal w) /\
  Modal.error (modal w') = Modal.error (modal w) /\
  Modal.thumbnail (modal w') = Modal.thumbnail (modal w) /\
  requestsOf (trace w') = requestsOf (trace w).
Proof.
  destruct w as [[bd ld er th] c t]. cbn. repeat split.
  rewrite requestsOf_app. cbn. now rewrite app_nil_r.
Qed.

(** X15: a run of field edits only writes the book of the form: the list
    controller, the loading flag, the error string and the pending
    thumbnail stay as they were and no request goes out.  Property names
    stay distinct; when every edited name is already a property of the
    book, the book keeps exactly its properties, in their order; and a
    property that no edit names keeps its value. *)
Theorem handleChanges_invariant (edits : list (string * string)) (w : World) :
  let w' := snd (handleChanges edits w) in
  let book := Modal.bookData (modal w) in
  let book' := Modal.bookData (modal w') in
  client w' = client w /\
  Modal.loading (modal w') = Modal.loading (modal w) /\
  Modal.error (modal w') = Modal.error (modal w) /\
  Modal.thumbnail (modal w') = Modal.thumbnail (modal w) /\
  requestsOf (trace w') = requestsOf (trace w) /\
  (NoDup (keys book) -> NoDup (keys book')) /\
  (Forall (fun edit => hasProp book (fst edit) = true) edits -> keys book' = keys book) /\
  (forall k, ~ In k (map fst edits) -> getProp book' k = getProp book k).
Proof.
  cbv zeta. revert w. induction edits as [| [name value] rest IH]; intros w.
  - cbn. repeat split; auto.
  - rewrite handleChanges_cons.
    destruct (handleChange_frame name value w) as (Hc & Hl & He & Ht & Hr).
    cbv zeta in *.
    destruct (IH (snd (BookModal.handleChange name value w)))
      as (IHc & IHl & IHe & IHt & IHr & IHnd & IHkeys & IHget).
    rewrite handleChange_bookData in IHnd, IHkeys, IHget.
    split; [congruence|]. split; [congruence|]. split; [congruence|].
    split; [congruence|]. split; [congruence|]. split; [|split].
    + intros Hnd. apply IHnd. now apply NoDup_keys_setProp.
    + intros Hall. inversion Hall as [| ? ? Hname Hrest]; subst. cbn [fst] in Hname.
      rewrite IHkeys.
      * now apply keys_setProp_present.
      * eapply Forall_impl; [|exact Hrest]. cbv beta. intros edit Hedit.
        unfold hasProp in *. now rewrite keys_setProp_present.
    + intros k Hk. cbn [map fst In] in Hk.
      rewrite IHget by (intros Hin; apply Hk; now right).
      apply getProp_setProp_other. intros ->. apply Hk. now left.
Qed.

Lemma handleChanges_invariant_witness :
  let w' := snd (handleChanges [("title", "Dune"); ("booksAmount", "3"); ("title", "Emma")]
                   worldAfterAdd) in
  keys (Modal.bookData (modal w')) = keys initialBookState /\
  NoDup (keys (Modal.bookData (modal w'))) /\
  getProp (Modal.bookData (modal w')) "author" = VStr "".
Proof.
  destruct (handleChanges_invariant
              [("title", "Dune"); ("booksAmount", "3"); ("title", "Emma")] worldAfterAdd)
    as (_ & _ & _ & _ & _ & Hnd & Hkeys & Hget).
  split; [|split].
  - apply Hkeys. repeat constructor.
  - apply Hnd. repeat constructor; cbn; intuition discriminate.
  - rewrite Hget; [reflexivity|]. cbn. intuition discriminate.
Defined.

(** ** Opening and closing the modal *)

(** What the effect of the modal leaves behind, whenever it runs. *)
Lemma effect_result API_URL bookId (ans : Answer DetailBody) (w : World) :
  let w' := snd (BookModal.effect API_URL bookId ans w) in
  client w' = client w /\
  Modal.thumbnail (modal w') = None /\
  Modal.error (modal w') = Modal.error (modal w) /\
  Modal.bookData (modal w') =
    (if String.eqb bookId "" then initialBookState
     else match ans with
          | Responds (mkResponse true (inr result)) => obj result
          | _ => Modal.bookData (modal w)
          end) /\
  requestsOf (trace w') =
    (requestsOf (trace w)
     ++ if String.eqb bookId "" then []
        else [mkRequest (API_URL ++ "/books/" ++ bookId) GET jsonHeaders None])%list.
Proof.
  destruct w as [[bd ld er th] c t]. unfold BookModal.effect. cbn [truthy].
  destruct (String.eqb bookId ""); cbn [negb].
  - observe. repeat split.
  - answer_cases ans; observe; repeat split.
Qed.

(** X16: the effect of the modal runs on closing as well.  Closing an
    open modal that shows a book sends one more detail request for that
    book; closing one in create mode resets the form to the blank
    template without a request.  In both cases the pending thumbnail is
    dropped. *)
Theorem closing_runs_effect (API_URL : string) (ans : Answer DetailBody) (w : World) :
  Client.isModalOpen (client w) = true ->
  let bookId := Client.selectedBook (client w) in
  let w1 := snd (BooksClient.onClose w) in
  let w2 := snd (Rendered.modalEffect API_URL (Some (Rendered.modalDeps w)) ans w1) in
  Client.isModalOpen (client w2) = false /\
  Modal.thumbnail (modal w2) = None /\
  requestsOf (trace w2) =
    (requestsOf (trace w)
     ++ if String.eqb bookId "" then []
        else [mkRequest (API_URL ++ "/books/" ++ bookId) GET jsonHeaders None])%list /\
  (bookId = "" -> Modal.bookData (modal w2) = initialBookState).
Proof.
  intros Hopen. cbv zeta.
  destruct w as [[bd ld er th] [kw data loading page viewCnt isOpen sel] t].
  cbn in Hopen. subst isOpen.
  unfold Rendered.modalEffect, Rendered.modalDeps, BookModal.useEffect, BookModal.sameDeps.
  cbn [BooksClient.onClose BooksClient.setIsModalOpen bind updClient emit snd fst client
       Client.selectedBook Client.isModalOpen Client.searchKeyword Client.data
       Client.loading Client.page Client.viewCnt modal trace].
  rewrite String.eqb_refl. cbn [andb Bool.eqb].
  match goal with
  | |- context [BookModal.effect ?a ?b ?c ?w0] =>
      destruct (effect_result a b c w0) as (Hc & Ht & _ & Hb & Hr)
  end.
  cbv zeta in *. cbn [client modal trace] in *.
  rewrite Hc, Ht, Hr, Hb. rewrite requestsOf_app. cbn [requestsOf]. rewrite app_nil_r.
  repeat split. intros ->. reflexivity.
Qed.

Lemma closing_runs_effect_witness :
  let w := snd (BooksClient.handleEditBook "42" initialWorld) in
  let w2 := snd (Rendered.modalEffect exampleApi (Some (Rendered.modalDeps w))
                   (Rejects (ErrorObj "offline")) (snd (BooksClient.onClose w))) in
  requestsOf (trace w2) =
    [mkRequest "http://localhost:8080/books/42" GET jsonHeaders None].
Proof.
  destruct (closing_runs_effect exampleApi (Rejects (ErrorObj "offline"))
              (snd (BooksClient.handleEditBook "42" initialWorld)) eq_refl)
    as (_ & _ & Hreq & _).
  exact Hreq.
Defined.

Lemma saveRequest_of_id API_URL book id :
  getProp book "id" = VStr id ->
  BooksClient.saveMethod book = (if String.eqb id "" then POST else PUT) /\
  BooksClient.saveUrl API_URL book =
    (if String.eqb id "" then API_URL ++ "/books" else API_URL ++ "/books/" ++ id).
Proof.
  intros H. unfold BooksClient.saveMethod, BooksClient.saveUrl. rewrite H. cbn.
  destruct (String.eqb id ""); cbn; split; reflexivity.
Qed.

(** X17: opening the modal from the closed state with "add book" gives a
    blank form without a pending thumbnail and sends no request; the
    error string of an earlier submit is not cleared by opening.  A
    submit right away POSTs to [/books] with every field empty. *)
Theorem add_then_submit (API_URL : string) (detail : Answer DetailBody)
    (save : Answer ErrorData) (refresh : Answer BooksResponse) (w : World) :
  Client.isModalOpen (client w) = false ->
  let w1 := snd (BooksClient.handleAddBook w) in
  let w2 := snd (Rendered.modalEffect API_URL (Some (Rendered.modalDeps w)) detail w1) in
  let w3 := snd (Rendered.submit API_URL save refresh w2) in
  Client.isModalOpen (client w2) = true /\
  Modal.bookData (modal w2) = initialBookState /\
  Modal.thumbnail (modal w2) = None /\
  Modal.error (modal w2) = Modal.error (modal w) /\
  requestsOf (trace w2) = requestsOf (trace w) /\
  exists rest,
    requestsOf (trace w3) =
    (requestsOf (trace w)
     ++ mkRequest (API_URL ++ "/books") POST []
          (Some (map (fun name => (name, FText "")) (keys initialBookState)))
     :: rest)%list.
Proof.
  intros Hclosed. cbv zeta.
  destruct w as [[bd ld er th] [kw data loading page viewCnt isOpen sel] t].
  cbn in Hclosed. subst isOpen.
  unfold Rendered.modalEffect at 1 2 3 4 5 6. unfold Rendered.modalDeps, BookModal.useEffect, BookModal.sameDeps.
  cbn [BooksClient.handleAddBook BooksClient.setIsModalOpen BooksClient.setSelectedBook
       bind updClient emit snd fst client
       Client.selectedBook Client.isModalOpen Client.searchKeyword Client.data
       Client.loading Client.page Client.viewCnt modal trace].
  rewrite andb_false_r.
  match goal with
  | |- context [BookModal.effect ?a ?b ?c ?w0] =>
      destruct (effect_result a b c w0) as (Hc & Ht & He & Hb & Hr);
      set (w2 := snd (BookModal.effect a b c w0)) in *
  end.
  cbv zeta in *. cbn [client modal trace Modal.error Modal.bookData String.eqb] in *.
  rewrite !requestsOf_app in Hr. cbn [requestsOf] in Hr. rewrite !app_nil_r in Hr.
  rewrite Hc, Ht, He, Hb, Hr. cbn [Client.isModalOpen].
  repeat (split; [reflexivity|]).
  rewrite submit_sends, Hr, Hb, Ht. eexists. reflexivity.
Qed.

Lemma add_then_submit_witness :
  let w2 := snd (Rendered.modalEffect exampleApi (Some (Rendered.modalDeps initialWorld))
                   (Rejects (ErrorObj "")) (snd (BooksClient.handleAddBook initialWorld))) in
  Modal.bookData (modal w2) = initialBookState /\ requestsOf (trace w2) = [].
Proof.
  destruct (add_then_submit exampleApi (Rejects (ErrorObj "")) (Rejects (ErrorObj ""))
              (Rejects (ErrorObj "")) initialWorld eq_refl)
    as (_ & Hbook & _ & _ & Hreq & _).
  split; [exact Hbook | exact Hreq].
Defined.

(** X18: the book that a save updates is the one whose [id] is in the
    form, not the one that was selected.  When the modal is opened for a
    book [b] and the detail request fails, the form still holds the book
    [a] it held before; a submit then sends a PUT for [/books/{a}] with
    the data of [a]. *)
Theorem failed_detail_fetch_saves_previous_book (API_URL a b : string)
    (detail : Answer DetailBody) (save : Answer ErrorData)
    (refresh : Answer BooksResponse) (w : World) :
  Client.isModalOpen (client w) = false ->
  getProp (Modal.bookData (modal w)) "id" = VStr a ->
  a <> "" -> b <> "" ->
  (forall result, detail <> Responds (mkResponse true (inr result))) ->
  let w1 := snd (BooksClient.handleEditBook b w) in
  let w2 := snd (Rendered.modalEffect API_URL (Some (Rendered.modalDeps w)) detail w1) in
  let w3 := snd (Rendered.submit API_URL save refresh w2) in
  Client.selectedBook (client w2) = b /\
  Modal.bookData (modal w2) = Modal.bookData (modal w) /\
  exists rest,
    requestsOf (trace w3) =
    (requestsOf (trace w)
     ++ mkRequest (API_URL ++ "/books/" ++ b) GET jsonHeaders None
     :: mkRequest (API_URL ++ "/books/" ++ a) PUT []
          (Some (BookModal.buildFormData (Modal.bookData (modal w)) None))
     :: rest)%list.
Proof.
  intros Hclosed Hid Ha Hb Hfail. cbv zeta.
  destruct w as [[bd ld er th] [kw data loading page viewCnt isOpen sel] t].
  cbn in Hclosed, Hid. subst isOpen.
  unfold Rendered.modalEffect at 1 2 3. unfold Rendered.modalDeps, BookModal.useEffect,
    BookModal.sameDeps.
  cbn [BooksClient.handleEditBook BooksClient.setIsModalOpen BooksClient.setSelectedBook
       bind updClient emit snd fst client
       Client.selectedBook Client.isModalOpen Client.searchKeyword Client.data
       Client.loading Client.page Client.viewCnt modal trace].
  rewrite andb_false_r.
  match goal with
  | |- context [BookModal.effect ?x ?y ?z ?w0] =>
      destruct (effect_result x y z w0) as (Hc & Ht & _ & Hbook & Hr);
      set (w2 := snd (BookModal.effect x y z w0)) in *
  end.
  cbv zeta in *. cbn [client modal trace Modal.error Modal.bookData] in *.
  destruct (String.eqb_spec b ""); [contradiction|].
  assert (Hkeep : Modal.bookData (modal w2) = bd).
  { rewrite Hbook. destruct detail as [e | [[|] [e | result]]]; try reflexivity.
    now contradiction (Hfail result). }
  rewrite !requestsOf_app in Hr. cbn [requestsOf] in Hr. rewrite !app_nil_r in Hr.
  rewrite Hc. cbn [Client.selectedBook].
  split; [reflexivity|]. split; [exact Hkeep|].
  rewrite submit_sends, Hr, Hkeep, Ht.
  destruct (saveRequest_of_id API_URL bd a Hid) as (-> & ->).
  destruct (String.eqb_spec a ""); [contradiction|].
  rewrite <- app_assoc. cbn [app]. eexists. reflexivity.
Qed.

Lemma failed_detail_fetch_saves_previous_book_witness :
  let w := mkWorld (Modal.mkState savedBook false "" None)
             (Client.mkState "" None false 1 10 false "42") [] in
  let w2 := snd (Rendered.modalEffect exampleApi (Some (Rendered.modalDeps w))
                   (Rejects (ErrorObj "offline"))
                   (snd (BooksClient.handleEditBook "7" w))) in
  exists rest,
    requestsOf (trace (snd (Rendered.submit exampleApi (Rejects (ErrorObj "offline"))
                              (Rejects (ErrorObj "offline")) w2))) =
    mkRequest "http://localhost:8080/books/7" GET jsonHeaders None
    :: mkRequest "http://localhost:8080/books/42" PUT []
         (Some (BookModal.buildFormData savedBook None))
    :: rest.
Proof.
  destruct (failed_detail_fetch_saves_previous_book exampleApi "42" "7"
              (Rejects (ErrorObj "offline")) (Rejects (ErrorObj "offline"))
              (Rejects (ErrorObj "offline"))
              (mkWorld (Modal.mkState savedBook false "" None)
                 (Client.mkState "" None false 1 10 false "42") []))
    as (_ & _ & rest & Hreq); try reflexivity; try discriminate.
  exists rest. exact Hreq.
Defined.

(** ** Quantities as text and back *)

Section DecimalRoundTrip.

Import Number.

Lemma readDigits_acc (u : Decimal.uint) : forall a : positive,
  readDigits 10 (NilEmpty.string_of_uint u) (Some (Z.pos a)) =
  Some (Z.pos (Pos.of_uint_acc u a)).
Proof.
  induction u; intros a; cbn [NilEmpty.string_of_uint Pos.of_uint_acc readDigits];
    [reflexivity | ..];
    (change (digitValue _) with (Some 0) || change (digitValue _) with (Some 1)
     || change (digitValue _) with (Some 2) || change (digitValue _) with (Some 3)
     || change (digitValue _) with (Some 4) || change (digitValue _) with (Some 5)
     || change (digitValue _) with (Some 6) || change (digitValue _) with (Some 7)
     || change (digitValue _) with (Some 8) || change (digitValue _) with (Some 9));
    cbn [Z.ltb Z.compare Pos.compare Pos.compare_cont];
    rewrite <- IHu; do 2 f_equal; lia.
Qed.

Lemma readDigits_zero (u : Decimal.uint) :
  readDigits 10 (NilEmpty.string_of_uint u) (Some 0) = Some (Z.of_N (Pos.of_uint u)).
Proof.
  induction u; cbn [NilEmpty.string_of_uint Pos.of_uint readDigits];
    [reflexivity | ..];
    (change (digitValue _) with (Some 0) || change (digitValue _) with (Some 1)
     || change (digitValue _) with (Some 2) || change (digitValue _) with (Some 3)
     || change (digitValue _) with (Some 4) || change (digitValue _) with (Some 5)
     || change (digitValue _) with (Some 6) || change (digitValue _) with (Some 7)
     || change (digitValue _) with (Some 8) || change (digitValue _) with (Some 9));
    cbn [Z.ltb Z.compare Pos.compare Pos.compare_cont Z.mul Z.add];
    [exact IHu | apply readDigits_acc ..].
Qed.

Lemma readDigits_start (u : Decimal.uint) :
  u <> Decimal.Nil ->
  readDigits 10 (NilEmpty.string_of_uint u) None = Some (Z.of_N (Pos.of_uint u)).
Proof.
  destruct u; intros H; [contradiction | ..];
    cbn [NilEmpty.string_of_uint Pos.of_uint readDigits];
    (change (digitValue _) with (Some 0) || change (digitValue _) with (Some 1)
     || change (digitValue _) with (Some 2) || change (digitValue _) with (Some 3)
     || change (digitValue _) with (Some 4) || change (digitValue _) with (Some 5)
     || change (digitValue _) with (Some 6) || change (digitValue _) with (Some 7)
     || change (digitValue _) with (Some 8) || change (digitValue _) with (Some 9));
    cbn [Z.ltb Z.compare Pos.compare Pos.compare_cont];
    [apply readDigits_zero | apply readDigits_acc ..].
Qed.

(** A decimal numeral is read as it stands: it starts with no white space,
    no sign and no [0x]. *)
Lemma parseInt_digits (u : Decimal.uint) :
  u <> Decimal.Nil ->
  parseInt (NilEmpty.string_of_uint u) = VNum (Z.of_N (Pos.of_uint u)) /\
  parseInt (String "-" (NilEmpty.string_of_uint u)) = VNum (- Z.of_N (Pos.of_uint u)).
Proof.
  intros H. pose proof (readDigits_start u H) as Hread.
  unfold parseInt.
  destruct u as [|u|u|u|u|u|u|u|u|u|u]; [contradiction | ..];
    try (cbn [NilEmpty.string_of_uint trimStart] in *;
         change (isWhiteSpace _) with false; cbv iota;
         cbn [NilEmpty.string_of_uint] in Hread; rewrite Hread;
         split; f_equal; lia).
  destruct u; cbn [NilEmpty.string_of_uint trimStart] in *;
    change (isWhiteSpace _) with false; cbv iota;
    cbn [NilEmpty.string_of_uint] in Hread; rewrite Hread; split; f_equal; lia.
Qed.

Lemma parseInt_numToString n : parseInt (numToString n) = VNum n.
Proof.
  unfold numToString. destruct n as [|p|p]; [reflexivity | ..];
    cbn [Z.to_int NilZero.string_of_int NilZero.string_of_uint];
    pose proof (DecimalPos.Unsigned.to_uint_nonnil p) as Hnil;
    destruct (parseInt_digits (Pos.to_uint p) Hnil) as [Hpos Hneg];
    rewrite DecimalPos.Unsigned.of_to in Hpos, Hneg.
  - destruct (Pos.to_uint p); [contradiction | exact Hpos ..].
  - destruct (Pos.to_uint p); [contradiction | exact Hneg ..].
Qed.

Lemma setProp_getProp_same o k : hasProp o k = true -> setProp o k (getProp o k) = o.
Proof.
  unfold hasProp, keys. induction o as [| [k0 v0] rest IH]; cbn; [discriminate|].
  rewrite (String.eqb_sym k k0).
  destruct (String.eqb k0 k); cbn; [reflexivity|].
  intros H. now rewrite IH.
Qed.

(** X19: a quantity survives the way through text.  When the quantity on
    hand of the form is a safe integer ([maxSafeInteger] in magnitude, the
    range in which a number prints as its exact decimal digits), writing
    into that field the text that the payload carries for it (the digits,
    or the empty string for 0) leaves the book as it is: the same
    quantity is stored again. *)
Theorem quantity_text_round_trip (n : Z) (w : World) :
  Z.abs n <= maxSafeInteger ->
  hasProp (Modal.bookData (modal w)) "booksAmount" = true ->
  getProp (Modal.bookData (modal w)) "booksAmount" = VNum n ->
  let text := textOf (getProp (Modal.bookData (modal w)) "booksAmount") in
  Modal.bookData (modal (snd (BookModal.handleChange "booksAmount" text w))) =
  Modal.bookData (modal w).
Proof.
  intros _ Hhas Hget. cbv zeta.
  rewrite handleChange_bookData.
  change (("booksAmount" =? "booksAmount")%string) with true. cbn [orb].
  assert (Hval : jsOr (parseInt (textOf (getProp (Modal.bookData (modal w)) "booksAmount")))
                   (VNum 0) = getProp (Modal.bookData (modal w)) "booksAmount").
  { rewrite Hget. unfold textOf. cbn [truthy toString].
    destruct (Z.eqb_spec n 0) as [-> | Hn]; cbn [negb]; [reflexivity|].
    rewrite parseInt_numToString. unfold jsOr. cbn [truthy].
    destruct (Z.eqb_spec n 0); [contradiction | reflexivity]. }
  rewrite Hval. now apply setProp_getProp_same.
Qed.

Lemma quantity_text_round_trip_witness :
  let w := snd (BookModal.handleChange "booksAmount" "120" worldAfterAdd) in
  Modal.bookData (modal (snd (BookModal.handleChange "booksAmount" "120" w))) =
  Modal.bookData (modal w).
Proof.
  apply (quantity_text_round_trip 120
           (snd (BookModal.handleChange "booksAmount" "120" worldAfterAdd))).
  - unfold maxSafeInteger. simpl. lia.
  - reflexivity.
  - reflexivity.
Defined.

End DecimalRoundTrip.

(** ** Refetching after a change *)

Lemma getBooks_requests API_URL kw page viewCnt (ans : Answer BooksResponse) (w : World) :
  requestsOf (trace (snd (BooksClient.getBooks API_URL kw page viewCnt ans w))) =
  (requestsOf (trace w)
   ++ [mkRequest (BooksClient.listUrl API_URL kw page viewCnt) GET jsonHeaders None])%list.
Proof. answer_cases ans; observe; reflexivity. Qed.

(** X20: a click in the pagination bar is followed by exactly one list
    request, for the page the click set and with the unchanged keyword and
    page size, when it changed the page; a click that leaves the page as
    it is (the disabled "이전" on page 1, or the button of the current
    page) is followed by none. *)
Theorem page_click_refetches_once (API_URL : string) (b : View.Button)
    (ans : Answer BooksResponse) (w : World) :
  let c := client w in
  let w1 := snd (View.click b w) in
  let w2 := snd (Rendered.listEffect API_URL (Some (Rendered.deps w)) ans w1) in
  Client.page (client w1) = (if View.disabled b then Client.page c else View.target b) /\
  requestsOf (trace w2) =
    (requestsOf (trace w)
     ++ if Client.page (client w1) =? Client.page c then []
        else [mkRequest (BooksClient.listUrl API_URL (Client.searchKeyword c)
                           (Client.page (client w1)) (Client.viewCnt c))
                        GET jsonHeaders None])%list.
Proof.
  destruct w as [m [kw data loading page viewCnt isOpen sel] t].
  destruct b as [lbl dis tgt act].
  unfold View.click, Rendered.listEffect, Rendered.deps, BooksClient.useEffect,
    BooksClient.sameDeps.
  cbn [View.disabled View.target client Client.page Client.viewCnt Client.searchKeyword].
  destruct dis.
  - cbn [ret snd client trace Client.page Client.viewCnt Client.searchKeyword].
    rewrite !Z.eqb_refl, String.eqb_refl. cbn. now rewrite app_nil_r.
  - cbn [BooksClient.handlePageChange BooksClient.setPage bind updClient emit snd fst
         client trace Client.page Client.viewCnt Client.searchKeyword].
    rewrite Z.eqb_refl, String.eqb_refl, !andb_true_r.
    split; [reflexivity|]. rewrite (Z.eqb_sym tgt page).
    destruct (page =? tgt).
    + cbn [ret snd trace]. rewrite requestsOf_app. cbn. now rewrite !app_nil_r.
    + rewrite getBooks_requests. cbn [trace]. rewrite requestsOf_app. cbn [requestsOf].
      now rewrite app_nil_r.
Qed.

(** X21: typing in the search box refetches at once: a new keyword is
    followed by one list request that carries the new keyword together
    with the current page, which typing does not reset; the same keyword
    again is followed by none. *)
Theorem keyword_change_refetches_current_page (API_URL keyword : string)
    (ans : Answer BooksResponse) (w : World) :
  let c := client w in
  let w1 := snd (BooksClient.setSearchKeyword keyword w) in
  let w2 := snd (Rendered.listEffect API_URL (Some (Rendered.deps w)) ans w1) in
  Client.page (client w1) = Client.page c /\
  Client.searchKeyword (client w1) = keyword /\
  requestsOf (trace w2) =
    (requestsOf (trace w)
     ++ if String.eqb keyword (Client.searchKeyword c) then []
        else [mkRequest (BooksClient.listUrl API_URL keyword (Client.page c)
                           (Client.viewCnt c))
                        GET jsonHeaders None])%list.
Proof.
  destruct w as [m [kw data loading page viewCnt isOpen sel] t].
  unfold Rendered.listEffect, Rendered.deps, BooksClient.useEffect, BooksClient.sameDeps.
  cbn [BooksClient.setSearchKeyword bind updClient emit snd fst
       client trace Client.page Client.viewCnt Client.searchKeyword].
  rewrite !Z.eqb_refl. cbn [andb].
  split; [reflexivity|]. split; [reflexivity|]. rewrite (String.eqb_sym keyword kw).
  destruct (String.eqb kw keyword).
  - cbn [ret snd trace]. rewrite requestsOf_app. cbn. now rewrite !app_nil_r.
  - rewrite getBooks_requests. cbn [trace]. rewrite requestsOf_app. cbn [requestsOf].
    now rewrite app_nil_r.
Qed.
